(** * VoiceVisualizer: a shallow embedding of the waveform component

    The development follows [src/components/VoiceVisualizer.tsx].  The
    component is a React function component: its [useState] cells are the
    record [State], its [useRef] cells the record [Refs], and each
    [useEffect]/[useLayoutEffect] body is a function from the values the
    render closed over (a [View]) and the mutable world to the new world.
    Calls to the helpers of [../helpers] and to the callbacks of [controls]
    leave the component; they are recorded, with their arguments, in a log.

    JavaScript numbers are idealised as exact rationals ([Q]): finite
    values, no rounding, no NaN.  Integral quantities the DOM or
    [Math.trunc]/[Math.round] produce are kept in [Z]. *)

From Stdlib Require Import ZArith QArith Qround List Bool String Lia.
From Stdlib Require Import Lqa.
Import ListNotations.

Local Open Scope Z_scope.

(** ** JavaScript numbers *)

Module JS.

Definition number := Q.

(** [Math.trunc]: drop the fractional part, towards zero. *)
Definition Math_trunc (x : number) : Z := Z.quot (Qnum x) (Zpos (Qden x)).

(** [Math.round]: nearest integer, halves towards plus infinity. *)
Definition Math_round (x : number) : Z := Qfloor (x + (1 # 2))%Q.

(** Truthiness of a number in a condition: everything but zero. *)
Definition truthy (x : number) : bool := negb (Qeq_bool x 0%Q).

(** [Object.is] on numbers, as React compares dependencies. *)
Definition same (x y : number) : bool := Qeq_bool x y.

End JS.

Import JS.

(** An object compared by reference (an array, a buffer): [oid] stands for
    its identity, [oval] for its contents. *)
Record Obj (A : Type) : Type := mkObj { oid : nat; oval : A }.
Arguments mkObj {A} _ _.
Arguments oid {A} _.
Arguments oval {A} _.

(** ** Props, controls and state *)

(** The props that take part in the logic (class names and icon colours
    only reach the markup and are left out). *)
Record Props : Type := mkProps {
  width : string;
  speed : number;
  backgroundColor : string;
  mainBarColor : string;
  secondaryBarColor : string;
  barWidth : number;
  gap : number;
  rounded : number;
  animateCurrentPick : bool;
  fullscreen : bool;
  onlyRecording : bool;
  isDefaultUIShown : bool;
  isProgressIndicatorShown : bool;
  isProgressIndicatorTimeShown : bool;
  isProgressIndicatorOnHoverShown : bool;
  isProgressIndicatorTimeOnHoverShown : bool
}.

(** The destructuring defaults of lines 100-129; the two indicator flags
    default to [!onlyRecording]. *)
Definition defaultProps (only : bool) : Props :=
  {| width := "100%";
     speed := 3%Q;
     backgroundColor := "transparent";
     mainBarColor := "#FFFFFF";
     secondaryBarColor := "#5e5e5e";
     barWidth := 2%Q;
     gap := 1%Q;
     rounded := 5%Q;
     animateCurrentPick := true;
     fullscreen := false;
     onlyRecording := only;
     isDefaultUIShown := true;
     isProgressIndicatorShown := negb only;
     isProgressIndicatorTimeShown := true;
     isProgressIndicatorOnHoverShown := negb only;
     isProgressIndicatorTimeOnHoverShown := true |}.

(** Modelled from the spec: [types/types.ts] is not among the sources.  A
    bar of the recorded waveform is a rendering-ready unit holding one
    amplitude; a live pick is like a bar. *)
Record BarsData : Type := mkBar { amplitude : number }.

Definition BarItem : Type := BarsData.

(** The fields of [controls] the component reads. *)
Record Controls : Type := mkControls {
  audioData : Obj (list Z);
  isRecordingInProgress : bool;
  isPausedRecording : bool;
  duration : number;
  currentAudioTime : number;
  bufferFromRecordedBlob : option (Obj (list number));
  isAvailableRecordedAudio : bool;
  isProcessingRecordedAudio : bool;
  isCleared : bool
}.

(** The [useState] cells of lines 133-141. *)
Record State : Type := mkState {
  hoveredOffsetX : number;
  canvasCurrentWidth : Z;
  canvasCurrentHeight : Z;
  canvasWidth : Z;
  isRecordedCanvasHovered : bool;
  screenWidth : Z;
  isResizing : bool;
  isProcessingAudio : bool
}.

Definition initialState : State :=
  {| hoveredOffsetX := 0%Q;
     canvasCurrentWidth := 0;
     canvasCurrentHeight := 0;
     canvasWidth := 0;
     isRecordedCanvasHovered := false;
     screenWidth := 0;
     isResizing := false;
     isProcessingAudio := false |}.

Definition setHoveredOffsetX (x : number) (s : State) : State :=
  mkState x (canvasCurrentWidth s) (canvasCurrentHeight s) (canvasWidth s)
          (isRecordedCanvasHovered s) (screenWidth s) (isResizing s)
          (isProcessingAudio s).

Definition setCanvasCurrentWidth (n : Z) (s : State) : State :=
  mkState (hoveredOffsetX s) n (canvasCurrentHeight s) (canvasWidth s)
          (isRecordedCanvasHovered s) (screenWidth s) (isResizing s)
          (isProcessingAudio s).

Definition setCanvasCurrentHeight (n : Z) (s : State) : State :=
  mkState (hoveredOffsetX s) (canvasCurrentWidth s) n (canvasWidth s)
          (isRecordedCanvasHovered s) (screenWidth s) (isResizing s)
          (isProcessingAudio s).

Definition setCanvasWidth (n : Z) (s : State) : State :=
  mkState (hoveredOffsetX s) (canvasCurrentWidth s) (canvasCurrentHeight s) n
          (isRecordedCanvasHovered s) (screenWidth s) (isResizing s)
          (isProcessingAudio s).

Definition setIsRecordedCanvasHovered (b : bool) (s : State) : State :=
  mkState (hoveredOffsetX s) (canvasCurrentWidth s) (canvasCurrentHeight s)
          (canvasWidth s) b (screenWidth s) (isResizing s)
          (isProcessingAudio s).

Definition setScreenWidth (n : Z) (s : State) : State :=
  mkState (hoveredOffsetX s) (canvasCurrentWidth s) (canvasCurrentHeight s)
          (canvasWidth s) (isRecordedCanvasHovered s) n (isResizing s)
          (isProcessingAudio s).

Definition setIsResizing (b : bool) (s : State) : State :=
  mkState (hoveredOffsetX s) (canvasCurrentWidth s) (canvasCurrentHeight s)
          (canvasWidth s) (isRecordedCanvasHovered s) (screenWidth s) b
          (isProcessingAudio s).

Definition setIsProcessingAudio (b : bool) (s : State) : State :=
  mkState (hoveredOffsetX s) (canvasCurrentWidth s) (canvasCurrentHeight s)
          (canvasWidth s) (isRecordedCanvasHovered s) (screenWidth s)
          (isResizing s) b.

(** ** Values derived on every render (lines 143-148 and 165) *)

Definition isMobile (s : State) : bool := screenWidth s <? 768.

Definition formattedSpeed (p : Props) : Z := Math_trunc (speed p).

Definition formattedGap (p : Props) : Z := Math_trunc (gap p).

Definition formattedBarWidth (p : Props) (s : State) : Z :=
  Math_trunc (if isMobile s && (0 <? formattedGap p)
              then (barWidth p + 1)%Q
              else barWidth p).

Definition unit (p : Props) (s : State) : Z :=
  formattedBarWidth p s + formattedGap p * formattedBarWidth p s.

(** ** The host page *)

Record Container : Type := mkContainer { clientWidth : Z; clientHeight : Z }.

(** The canvas element; [rectLeft] is [getBoundingClientRect().left]. *)
Record Canvas : Type := mkCanvas { rectLeft : number }.

(** What the component reads from the page: the two element refs (null
    until mounted), whether the forwarded ref holds the audio element, and
    two properties of [window]. *)
Record Dom : Type := mkDom {
  canvasContainerRef : option Container;
  canvasRef : option Canvas;
  audioRef : bool;
  devicePixelRatio : number;
  innerWidth : Z
}.

(** ** The background compute channel *)

(** The request of lines 268-274. *)
Module GetBarsDataParams.
Record t : Type := make {
  bufferData : Obj (list number);
  height : Z;
  width : Z;
  barWidth : Z;
  gap : Z
}.
End GetBarsDataParams.

(** Modelled from the spec: [hooks/useWebWorker.tsx] is not among the
    sources.  The channel runs the extractor off the rendering thread and
    delivers its result later.  Submitting a request supersedes the earlier
    ones; requests are numbered by a generation counter and a response whose
    generation is not the latest is dropped on arrival.  The last result
    stays available until another one replaces it.

    [answers] is a ghost field: the generation of the request the stored
    sequence answers ([None] for a value the component stored itself);
    [rid] stands for the identity of the stored array. *)
Module Channel.

Record Stored : Type := mkStored {
  bars : list BarsData;
  rid : nat;
  answers : option nat
}.

Record t : Type := make {
  submitted : list GetBarsDataParams.t;
  result : Stored
}.

(** The generation of the last-submitted request; requests are numbered
    from 1 in the order of submission. *)
Definition generation (c : t) : nat := List.length (submitted c).

Definition request (g : nat) (c : t) : option GetBarsDataParams.t :=
  match g with
  | O => None
  | S n => nth_error (submitted c) n
  end.

Definition init (initialValue : list BarsData) : t :=
  {| submitted := [];
     result := {| bars := initialValue; rid := 0; answers := None |} |}.

Definition run (req : GetBarsDataParams.t) (c : t) : t :=
  {| submitted := submitted c ++ [req]; result := result c |}.

Definition setResult (data : list BarsData) (c : t) : t :=
  {| submitted := submitted c;
     result := {| bars := data;
                  rid := S (rid (result c));
                  answers := None |} |}.

(** A response of generation [g] arrives. *)
Definition deliver (g : nat) (data : list BarsData) (c : t) : t :=
  if ((g =? generation c) && (0 <? g))%nat
  then {| submitted := submitted c;
          result := {| bars := data;
                       rid := S (rid (result c));
                       answers := Some g |} |}
  else c.

End Channel.

(** ** Calls that leave the component *)

Record LiveStreamArgs : Type := mkLiveStreamArgs {
  la_audioData : Obj (list Z);
  la_unit : Z;
  la_canvasWidth : Z;
  la_isRecordingInProgress : bool;
  la_isPausedRecording : bool;
  la_backgroundColor : string;
  la_mainBarColor : string;
  la_secondaryBarColor : string;
  la_barWidth : Z;
  la_rounded : number;
  la_animateCurrentPick : bool;
  la_fullscreen : bool
}.

Record BlobArgs : Type := mkBlobArgs {
  ba_barsData : list BarsData;
  ba_canvasWidth : Z;
  ba_barWidth : Z;
  ba_gap : Z;
  ba_backgroundColor : string;
  ba_mainBarColor : string;
  ba_secondaryBarColor : string;
  ba_currentAudioTime : number;
  ba_rounded : number;
  ba_duration : number
}.

(** Ghost data attached to a static draw: the generation the drawn
    sequence answers and the generation of the last-submitted request at
    the moment of the call. *)
Record Provenance : Type := mkProvenance {
  drawnAnswers : option nat;
  latestSubmitted : nat
}.

Inductive Call : Type :=
| DrawByLiveStream (a : LiveStreamArgs)
| DrawByBlob (a : BlobArgs) (g : Provenance)
| InitialCanvasSetup (background : string)
| ClearCanvas
| SetCurrentAudioTime (t : number)
| SetIsProcessingRecordedAudio (b : bool).

Definition isDrawByBlob (c : Call) : bool :=
  match c with DrawByBlob _ _ => true | _ => false end.

Definition isDrawByLiveStream (c : Call) : bool :=
  match c with DrawByLiveStream _ => true | _ => false end.

(** ** Render closures and the mutable world *)

(** What one render closes over: props, controls, state, the channel's
    result and the value of [canvasRef.current] read for the dependency
    arrays. *)
Record View : Type := mkView {
  vProps : Props;
  vControls : Controls;
  vState : State;
  vBarsData : Channel.Stored;
  vCanvas : bool
}.

(** The [useRef] cells of lines 151-154 (the two element refs are part of
    [Dom]).  [indexRef], [index2Ref] and the contents of [picksRef] are
    handed to [drawByLiveStream], which alone updates them. *)
Record Refs : Type := mkRefs {
  picksRef : list (option BarItem);
  indexSpeedRef : Z;
  indexRef : Z;
  index2Ref : Z
}.

Inductive PointerListener : Type := OnMouseEnter | OnMouseLeave.

(** The listeners the effects have registered: the window's resize listener
    with the [isAvailableRecordedAudio] it closed over, the canvas's
    mouseenter or mouseleave listener, and its mousemove listener. *)
Record Listeners : Type := mkListeners {
  resizeListener : option bool;
  pointerListener : option PointerListener;
  mousemoveListener : bool
}.

Record World : Type := mkWorld {
  props : Props;
  controls : Controls;
  state : State;
  refs : Refs;
  channel : Channel.t;
  dom : Dom;
  committed : option View;
  listeners : Listeners;
  debouncePending : bool;
  audioCurrentTime : number;
  log : list Call
}.

Definition withProps (p : Props) (c : Controls) (w : World) : World :=
  mkWorld p c (state w) (refs w) (channel w) (dom w) (committed w)
          (listeners w) (debouncePending w) (audioCurrentTime w) (log w).

Definition withState (s : State) (w : World) : World :=
  mkWorld (props w) (controls w) s (refs w) (channel w) (dom w) (committed w)
          (listeners w) (debouncePending w) (audioCurrentTime w) (log w).

Definition withRefs (r : Refs) (w : World) : World :=
  mkWorld (props w) (controls w) (state w) r (channel w) (dom w) (committed w)
          (listeners w) (debouncePending w) (audioCurrentTime w) (log w).

Definition withChannel (c : Channel.t) (w : World) : World :=
  mkWorld (props w) (controls w) (state w) (refs w) c (dom w) (committed w)
          (listeners w) (debouncePending w) (audioCurrentTime w) (log w).

Definition withDom (d : Dom) (w : World) : World :=
  mkWorld (props w) (controls w) (state w) (refs w) (channel w) d
          (committed w) (listeners w) (debouncePending w)
          (audioCurrentTime w) (log w).

Definition withCommitted (v : option View) (w : World) : World :=
  mkWorld (props w) (controls w) (state w) (refs w) (channel w) (dom w) v
          (listeners w) (debouncePending w) (audioCurrentTime w) (log w).

Definition withListeners (l : Listeners) (w : World) : World :=
  mkWorld (props w) (controls w) (state w) (refs w) (channel w) (dom w)
          (committed w) l (debouncePending w) (audioCurrentTime w) (log w).

Definition withDebouncePending (b : bool) (w : World) : World :=
  mkWorld (props w) (controls w) (state w) (refs w) (channel w) (dom w)
          (committed w) (listeners w) b (audioCurrentTime w) (log w).

Definition withAudioCurrentTime (t : number) (w : World) : World :=
  mkWorld (props w) (controls w) (state w) (refs w) (channel w) (dom w)
          (committed w) (listeners w) (debouncePending w) t (log w).

(** Calls are logged in the order they are made. *)
Definition call (c : Call) (w : World) : World :=
  mkWorld (props w) (controls w) (state w) (refs w) (channel w) (dom w)
          (committed w) (listeners w) (debouncePending w)
          (audioCurrentTime w) (log w ++ [c]).

Definition setIndexSpeedRef (n : Z) (w : World) : World :=
  withRefs (mkRefs (picksRef (refs w)) n (indexRef (refs w))
                   (index2Ref (refs w))) w.

Definition setPicksRef (l : list (option BarItem)) (w : World) : World :=
  withRefs (mkRefs l (indexSpeedRef (refs w)) (indexRef (refs w))
                   (index2Ref (refs w))) w.

Definition canvasMounted (d : Dom) : bool :=
  match canvasRef d with Some _ => true | None => false end.

(** The closure of the render that would run now. *)
Definition view (w : World) : View :=
  {| vProps := props w;
     vControls := controls w;
     vState := state w;
     vBarsData := Channel.result (channel w);
     vCanvas := canvasMounted (dom w) |}.

(** The component before its first render: the state cells hold their
    initial values, the refs are initialised from the first render's
    [formattedSpeed] and [formattedBarWidth], and the channel holds its
    initial value [[]]. *)
Definition mount (p : Props) (c : Controls) (d : Dom) : World :=
  {| props := p;
     controls := c;
     state := initialState;
     refs := {| picksRef := [];
                indexSpeedRef := formattedSpeed p;
                indexRef := formattedBarWidth p initialState;
                index2Ref := formattedBarWidth p initialState |};
     channel := Channel.init [];
     dom := d;
     committed := None;
     listeners := {| resizeListener := None;
                     pointerListener := None;
                     mousemoveListener := false |};
     debouncePending := false;
     audioCurrentTime := 0%Q;
     log := [] |}.

(** ** The effects *)

(** The argument object of lines 191-207; [la_canvasWidth] is the width
    attribute of the canvas that is passed. *)
Definition liveStreamArgs (v : View) : LiveStreamArgs :=
  {| la_audioData := audioData (vControls v);
     la_unit := unit (vProps v) (vState v);
     la_canvasWidth := canvasWidth (vState v);
     la_isRecordingInProgress := isRecordingInProgress (vControls v);
     la_isPausedRecording := isPausedRecording (vControls v);
     la_backgroundColor := backgroundColor (vProps v);
     la_mainBarColor := mainBarColor (vProps v);
     la_secondaryBarColor := secondaryBarColor (vProps v);
     la_barWidth := formattedBarWidth (vProps v) (vState v);
     la_rounded := rounded (vProps v);
     la_animateCurrentPick := animateCurrentPick (vProps v);
     la_fullscreen := fullscreen (vProps v) |}.

(** The throttle test of line 189. *)
Definition liveStreamDue (v : View) (w : World) : bool :=
  (formattedSpeed (vProps v) <=? indexSpeedRef (refs w))
  || (List.length (oval (audioData (vControls v))) =? 0)%nat.

(** The layout effect of lines 186-223: one tick of the live renderer. *)
Definition liveStreamEffect (v : View) (w : World) : World :=
  match canvasRef (dom w) with
  | None => w
  | Some _ =>
      let w1 :=
        if liveStreamDue v w
        then call (DrawByLiveStream (liveStreamArgs v)) (setIndexSpeedRef 0 w)
        else w in
      setIndexSpeedRef (indexSpeedRef (refs w1) + 1) w1
  end.

(** Modelled from the spec: [hooks/useDebounce.tsx] is not among the
    sources.  The debounce is trailing-edge: calls within the quiet period
    collapse into one pending run of the wrapped function, which the timer
    performs later. *)
Definition debouncedOnResize (w : World) : World := withDebouncePending true w.

(** The effect of lines 167-184: ask for a recomputation and listen to the
    window's resize events. *)
Definition resizeListenerEffect (v : View) (w : World) : World :=
  let w1 := debouncedOnResize w in
  withListeners
    (mkListeners (Some (isAvailableRecordedAudio (vControls v)))
                 (pointerListener (listeners w1))
                 (mousemoveListener (listeners w1))) w1.

(** The effect of lines 225-248; its clean-up removes the listener the
    previous run added. *)
Definition pointerListenerEffect (v : View) (w : World) : World :=
  let l :=
    if negb (isAvailableRecordedAudio (vControls v)) then None
    else if negb (canvasMounted (dom w)) then None
    else if isRecordedCanvasHovered (vState v) then Some OnMouseLeave
    else Some OnMouseEnter in
  withListeners
    (mkListeners (resizeListener (listeners w)) l
                 (mousemoveListener (listeners w))) w.

Definition setMousemoveListener (b : bool) (w : World) : World :=
  withListeners
    (mkListeners (resizeListener (listeners w))
                 (pointerListener (listeners w)) b) w.

(** The request built at lines 268-274. *)
Definition extractionRequest (buf : Obj (list number)) (v : View)
  : GetBarsDataParams.t :=
  {| GetBarsDataParams.bufferData := buf;
     GetBarsDataParams.height := canvasCurrentHeight (vState v);
     GetBarsDataParams.width := canvasWidth (vState v);
     GetBarsDataParams.barWidth := formattedBarWidth (vProps v) (vState v);
     GetBarsDataParams.gap := formattedGap (vProps v) |}.

(** The effect of lines 250-295: submit an extraction request.  The
    clean-up of the previous run has removed the mousemove listener. *)
Definition extractionEffect (v : View) (w : World) : World :=
  let w0 := setMousemoveListener false w in
  match bufferFromRecordedBlob (vControls v), canvasRef (dom w0) with
  | Some buf, Some _ =>
      if isRecordingInProgress (vControls v) then w0
      else if onlyRecording (vProps v) then call ClearCanvas w0
      else
        let w1 := setPicksRef [] w0 in
        let w2 :=
          withChannel (Channel.run (extractionRequest buf v) (channel w1)) w1 in
        setMousemoveListener true w2
  | _, _ => w0
  end.

(** The argument object of lines 311-322. *)
Definition blobArgs (v : View) : BlobArgs :=
  {| ba_barsData := Channel.bars (vBarsData v);
     ba_canvasWidth := canvasWidth (vState v);
     ba_barWidth := formattedBarWidth (vProps v) (vState v);
     ba_gap := formattedGap (vProps v);
     ba_backgroundColor := backgroundColor (vProps v);
     ba_mainBarColor := mainBarColor (vProps v);
     ba_secondaryBarColor := secondaryBarColor (vProps v);
     ba_currentAudioTime := currentAudioTime (vControls v);
     ba_rounded := rounded (vProps v);
     ba_duration := duration (vControls v) |}.

(** The guard of lines 298-304. *)
Definition staticRenderSkipped (v : View) (w : World) : bool :=
  onlyRecording (vProps v)
  || (List.length (Channel.bars (vBarsData v)) =? 0)%nat
  || negb (canvasMounted (dom w))
  || isResizing (vState v).

(** The effect of lines 297-336: the static renderer's step. *)
Definition staticRenderEffect (v : View) (w : World) : World :=
  if staticRenderSkipped v w then w
  else if isCleared (vControls v)
  then withChannel (Channel.setResult [] (channel w)) w
  else
    let w1 :=
      call (DrawByBlob (blobArgs v)
              {| drawnAnswers := Channel.answers (vBarsData v);
                 latestSubmitted := Channel.generation (channel w) |}) w in
    let w2 := withState (setIsProcessingAudio false (state w1)) w1 in
    call (SetIsProcessingRecordedAudio false) w2.

(** The effect of lines 338-346. *)
Definition processingEffect (v : View) (w : World) : World :=
  if (isProcessingRecordedAudio (vControls v) || isResizing (vState v))
     && canvasMounted (dom w)
  then call (InitialCanvasSetup (backgroundColor (vProps v))) w
  else w.

(** ** Geometry recomputation and the event handlers *)

Definition roundedHeight (box : Container) (d : Dom) : Z :=
  Math_trunc ((inject_Z (clientHeight box) * devicePixelRatio d) / 2)%Q * 2.

Definition roundedWidth (box : Container) (d : Dom) : Z :=
  Math_round (inject_Z (clientWidth box) * devicePixelRatio d)%Q.

(** [onResize], lines 348-369; [p] are the props it closed over. *)
Definition onResize (p : Props) (w : World) : World :=
  match canvasContainerRef (dom w), canvasRef (dom w) with
  | Some box, Some _ =>
      let w1 := setIndexSpeedRef (formattedSpeed p) w in
      withState
        (setIsResizing false
           (setScreenWidth (innerWidth (dom w))
              (setCanvasWidth (roundedWidth box (dom w))
                 (setCanvasCurrentHeight (roundedHeight box (dom w))
                    (setCanvasCurrentWidth (clientWidth box) (state w1))))))
        w1
  | _, _ => w
  end.

(** [handleResize], lines 170-176, with the [isAvailableRecordedAudio] of
    the render that registered it. *)
Definition handleResize (w : World) : World :=
  match resizeListener (listeners w) with
  | Some true =>
      debouncedOnResize
        (withState (setIsResizing true (setIsProcessingAudio true (state w))) w)
  | _ => w
  end.

Definition showTimeIndicator (w : World) : World :=
  withState (setIsRecordedCanvasHovered true (state w)) w.

Definition hideTimeIndicator (w : World) : World :=
  withState (setIsRecordedCanvasHovered false (state w)) w.

Definition setCurrentHoveredOffsetX (offsetX : number) (w : World) : World :=
  withState (setHoveredOffsetX offsetX (state w)) w.

(** The value assigned to [audioRef.current.currentTime] at lines 388-390,
    when both refs are set. *)
Definition seekTime (d : Dom) (v : View) (clientX : number) : option number :=
  if audioRef d
  then match canvasRef d with
       | Some c =>
           Some ((duration (vControls v)
                  / inject_Z (canvasCurrentWidth (vState v)))
                 * (clientX - rectLeft c))%Q
       | None => None
       end
  else None.

(** [handleRecordedAudioCurrentTime], lines 383-394: write the seek time
    to the audio element's clock and report the clock to the host. *)
Definition handleRecordedAudioCurrentTime (v : View) (clientX : number)
  (w : World) : World :=
  match seekTime (dom w) v clientX with
  | Some t => call (SetCurrentAudioTime t) (withAudioCurrentTime t w)
  | None => w
  end.

(** ** The markup that depends on time and geometry *)

(** The hover indicator of lines 444-473.  [hi_time] is the number handed
    to [formatRecordedAudioTime] when the time label is shown. *)
Record HoverIndicator : Type := mkHoverIndicator {
  hi_left : number;
  hi_time : option number;
  hi_timeOnTheLeft : bool
}.

Definition hoveredTime (v : View) : number :=
  ((duration (vControls v) / inject_Z (canvasCurrentWidth (vState v)))
   * hoveredOffsetX (vState v))%Q.

Definition hoverIndicator (v : View) : option HoverIndicator :=
  if isRecordedCanvasHovered (vState v)
     && isAvailableRecordedAudio (vControls v)
     && negb (isProcessingAudio (vState v))
     && negb (isMobile (vState v))
     && isProgressIndicatorOnHoverShown (vProps v)
  then Some
         {| hi_left := hoveredOffsetX (vState v);
            hi_time :=
              if isProgressIndicatorTimeOnHoverShown (vProps v)
              then Some (hoveredTime v)
              else None;
            hi_timeOnTheLeft :=
              negb (Qle_bool 70
                      (inject_Z (canvasCurrentWidth (vState v))
                       - hoveredOffsetX (vState v))) |}
  else None.

(** The progress indicator of lines 474-500. *)
Record ProgressIndicator : Type := mkProgressIndicator {
  pi_left : number;
  pi_timeOnTheLeft : option bool
}.

Definition progressIndicator (v : View) : option ProgressIndicator :=
  if isProgressIndicatorShown (vProps v)
     && isAvailableRecordedAudio (vControls v)
     && negb (isResizing (vState v))
     && truthy (duration (vControls v))
  then Some
         {| pi_left :=
              ((currentAudioTime (vControls v) / duration (vControls v))
               * inject_Z (canvasCurrentWidth (vState v)))%Q;
            pi_timeOnTheLeft :=
              if isProgressIndicatorTimeShown (vProps v)
              then Some
                     (negb (Qle_bool 70
                              (inject_Z (canvasCurrentWidth (vState v))
                               - (currentAudioTime (vControls v)
                                  * inject_Z (canvasCurrentWidth (vState v)))
                                 / duration (vControls v))))
              else None |}
  else None.

(** ** Commits and events *)

(** Dependency arrays, compared as React does: numbers, strings and
    booleans by value, arrays and buffers by identity. *)
Definition sameBuffer (a b : option (Obj (list number))) : bool :=
  match a, b with
  | None, None => true
  | Some x, Some y => (oid x =? oid y)%nat
  | _, _ => false
  end.

Definition sameResizeDeps (a b : View) : bool :=
  String.eqb (width (vProps a)) (width (vProps b))
  && Bool.eqb (isAvailableRecordedAudio (vControls a))
              (isAvailableRecordedAudio (vControls b)).

Definition sameLiveStreamDeps (a b : View) : bool :=
  Bool.eqb (vCanvas a) (vCanvas b)
  && (oid (audioData (vControls a)) =? oid (audioData (vControls b)))%nat
  && (formattedBarWidth (vProps a) (vState a)
      =? formattedBarWidth (vProps b) (vState b))
  && String.eqb (backgroundColor (vProps a)) (backgroundColor (vProps b))
  && String.eqb (mainBarColor (vProps a)) (mainBarColor (vProps b))
  && String.eqb (secondaryBarColor (vProps a)) (secondaryBarColor (vProps b))
  && same (rounded (vProps a)) (rounded (vProps b))
  && Bool.eqb (fullscreen (vProps a)) (fullscreen (vProps b))
  && Bool.eqb (isDefaultUIShown (vProps a)) (isDefaultUIShown (vProps b))
  && (canvasWidth (vState a) =? canvasWidth (vState b)).

Definition samePointerDeps (a b : View) : bool :=
  Bool.eqb (isRecordedCanvasHovered (vState a))
           (isRecordedCanvasHovered (vState b))
  && Bool.eqb (isAvailableRecordedAudio (vControls a))
              (isAvailableRecordedAudio (vControls b)).

Definition sameExtractionDeps (a b : View) : bool :=
  sameBuffer (bufferFromRecordedBlob (vControls a))
             (bufferFromRecordedBlob (vControls b))
  && (canvasCurrentWidth (vState a) =? canvasCurrentWidth (vState b))
  && (canvasCurrentHeight (vState a) =? canvasCurrentHeight (vState b))
  && same (gap (vProps a)) (gap (vProps b))
  && same (barWidth (vProps a)) (barWidth (vProps b)).

Definition sameStaticRenderDeps (a b : View) : bool :=
  (Channel.rid (vBarsData a) =? Channel.rid (vBarsData b))%nat
  && same (currentAudioTime (vControls a)) (currentAudioTime (vControls b))
  && Bool.eqb (isCleared (vControls a)) (isCleared (vControls b))
  && same (rounded (vProps a)) (rounded (vProps b))
  && String.eqb (backgroundColor (vProps a)) (backgroundColor (vProps b))
  && String.eqb (mainBarColor (vProps a)) (mainBarColor (vProps b))
  && String.eqb (secondaryBarColor (vProps a)) (secondaryBarColor (vProps b))
  && Bool.eqb (isResizing (vState a)) (isResizing (vState b)).

Definition sameProcessingDeps (a b : View) : bool :=
  Bool.eqb (isProcessingRecordedAudio (vControls a))
           (isProcessingRecordedAudio (vControls b))
  && Bool.eqb (isResizing (vState a)) (isResizing (vState b)).

(** An effect runs on the first commit and whenever a dependency differs
    from the previous commit's. *)
Definition runEffect (sameDeps : View -> View -> bool)
  (body : View -> World -> World) (prev : option View) (v : View)
  (w : World) : World :=
  match prev with
  | None => body v w
  | Some u => if sameDeps u v then w else body v w
  end.

(** One render and its commit: the layout effect first, then the passive
    effects in the order of the source.  Every effect sees the values of
    this render and the world as the earlier effects left it. *)
Definition render (w : World) : World :=
  let v := view w in
  let prev := committed w in
  let w1 := runEffect sameLiveStreamDeps liveStreamEffect prev v w in
  let w2 := runEffect sameResizeDeps resizeListenerEffect prev v w1 in
  let w3 := runEffect samePointerDeps pointerListenerEffect prev v w2 in
  let w4 := runEffect sameExtractionDeps extractionEffect prev v w3 in
  let w5 := runEffect sameStaticRenderDeps staticRenderEffect prev v w4 in
  let w6 := runEffect sameProcessingDeps processingEffect prev v w5 in
  withCommitted (Some v) w6.

Inductive Event : Type :=
| Render
| HostUpdate (p : Props) (c : Controls)
| DomChange (d : Dom)
| WindowResize
| DebounceFire
| WorkerResponse (g : nat) (data : list BarsData)
| MouseEnter
| MouseLeave
| MouseMove (offsetX : number)
| Click (clientX : number).

(** The props the handlers of the last commit closed over. *)
Definition closureProps (w : World) : Props :=
  match committed w with
  | Some v => vProps v
  | None => props w
  end.

Definition step (e : Event) (w : World) : World :=
  match e with
  | Render => render w
  | HostUpdate p c => withProps p c w
  | DomChange d => withDom d w
  | WindowResize => handleResize w
  | DebounceFire =>
      if debouncePending w
      then onResize (closureProps w) (withDebouncePending false w)
      else w
  | WorkerResponse g data =>
      withChannel (Channel.deliver g data (channel w)) w
  | MouseEnter =>
      match pointerListener (listeners w) with
      | Some OnMouseEnter => showTimeIndicator w
      | _ => w
      end
  | MouseLeave =>
      match pointerListener (listeners w) with
      | Some OnMouseLeave => hideTimeIndicator w
      | _ => w
      end
  | MouseMove offsetX =>
      if mousemoveListener (listeners w)
      then setCurrentHoveredOffsetX offsetX w
      else w
  | Click clientX =>
      match committed w with
      | Some v => handleRecordedAudioCurrentTime v clientX w
      | None => w
      end
  end.

Definition run (evs : list Event) (w : World) : World :=
  fold_left (fun w e => step e w) evs w.

(** ** Runs of the live renderer and counts over the log *)

(** Consecutive ticks of the live renderer, one per render in [vs]. *)
Definition ticks (vs : list View) (w : World) : World :=
  fold_left (fun w v => liveStreamEffect v w) vs w.

Definition liveDraws (l : list Call) : nat :=
  List.length (filter isDrawByLiveStream l).

Definition blobDraws (l : list Call) : list Call := filter isDrawByBlob l.

(** A tick made with amplitude data present, under speed [s]. *)
Definition dataTick (s : Z) (v : View) : Prop :=
  formattedSpeed (vProps v) = s /\ oval (audioData (vControls v)) <> [].

(** A tick made with an empty amplitude stream. *)
Definition emptyTick (v : View) : Prop :=
  oval (audioData (vControls v)) = [].

(** A static draw shows a sequence some submitted request was answered
    with; it is fresh when that request is the last-submitted one. *)
Definition sourcedDraw (c : Call) : Prop :=
  match c with
  | DrawByBlob _ g =>
      exists n, drawnAnswers g = Some n /\ (1 <= n <= latestSubmitted g)%nat
  | _ => True
  end.

Definition freshDraw (c : Call) : Prop :=
  match c with
  | DrawByBlob _ g => drawnAnswers g = Some (latestSubmitted g)
  | _ => True
  end.

(** The last-submitted request. *)
Definition lastSubmitted (c : Channel.t) : option GetBarsDataParams.t :=
  Channel.request (Channel.generation c) c.

(** An event completes a resize when the debounce timer fires with a run
    pending and both element refs set: [onResize] then recomputes the
    geometry and clears the resizing flag. *)
Definition completesResize (e : Event) (w : World) : bool :=
  match e with
  | DebounceFire =>
      debouncePending w
      && match canvasContainerRef (dom w), canvasRef (dom w) with
         | Some _, Some _ => true
         | _, _ => false
         end
  | _ => false
  end.

(** No event of the run [evs], started in [w], completes a resize. *)
Fixpoint noResizeCompleted (evs : list Event) (w : World) : Prop :=
  match evs with
  | [] => True
  | e :: evs' => completesResize e w = false /\ noResizeCompleted evs' (step e w)
  end.

(** [w'] has the state of [w] and no static draw that [w] has not. *)
Definition quiet (w w' : World) : Prop :=
  state w' = state w /\ blobDraws (log w') = blobDraws (log w).

(** The stored sequence [r] is empty or answers a request submitted on
    [c]. *)
Definition answered (c : Channel.t) (r : Channel.Stored) : Prop :=
  match Channel.answers r with
  | Some n => (1 <= n <= Channel.generation c)%nat
  | None => Channel.bars r = []
  end.

(** The invariant of a run: the stored sequence is answered and so is
    every sequence drawn so far. *)
Definition sound (w : World) : Prop :=
  answered (channel w) (Channel.result (channel w))
  /\ Forall sourcedDraw (log w).

(** The same within a commit, for the sequence the render closed over. *)
Definition soundFor (v : View) (w : World) : Prop :=
  answered (channel w) (vBarsData v) /\ sound w.

(** ** Sample pages, controls and runs *)

Module Sample.

Definition setGap (g : number) (p : Props) : Props :=
  mkProps (width p) (speed p) (backgroundColor p) (mainBarColor p)
          (secondaryBarColor p) (barWidth p) g (rounded p)
          (animateCurrentPick p) (fullscreen p) (onlyRecording p)
          (isDefaultUIShown p) (isProgressIndicatorShown p)
          (isProgressIndicatorTimeShown p)
          (isProgressIndicatorOnHoverShown p)
          (isProgressIndicatorTimeOnHoverShown p).

(** A page whose container is [cw] by 100 CSS pixels, on a display with
    device pixel ratio [dpr] and a 1024 pixels wide viewport. *)
Definition page (cw : Z) (dpr : number) : Dom :=
  {| canvasContainerRef := Some (mkContainer cw 100);
     canvasRef := Some (mkCanvas 0%Q);
     audioRef := true;
     devicePixelRatio := dpr;
     innerWidth := 1024 |}.

(** Nothing recorded yet: the amplitude stream is empty. *)
Definition idle : Controls :=
  {| audioData := mkObj 0%nat [];
     isRecordingInProgress := false;
     isPausedRecording := false;
     duration := 0%Q;
     currentAudioTime := 0%Q;
     bufferFromRecordedBlob := None;
     isAvailableRecordedAudio := false;
     isProcessingRecordedAudio := false;
     isCleared := true |}.

(** Recording in progress; [n] identifies the current amplitude frame. *)
Definition recording (n : nat) : Controls :=
  {| audioData := mkObj n [128; 131; 126];
     isRecordingInProgress := true;
     isPausedRecording := false;
     duration := 0%Q;
     currentAudioTime := 0%Q;
     bufferFromRecordedBlob := None;
     isAvailableRecordedAudio := false;
     isProcessingRecordedAudio := false;
     isCleared := false |}.

(** A two minutes long recording is available, playback at [t]. *)
Definition recorded (t : number) (cleared : bool) : Controls :=
  {| audioData := mkObj 0%nat [];
     isRecordingInProgress := false;
     isPausedRecording := false;
     duration := 120%Q;
     currentAudioTime := t;
     bufferFromRecordedBlob := Some (mkObj 1%nat [(1 # 2)%Q; (-1 # 4)%Q]);
     isAvailableRecordedAudio := true;
     isProcessingRecordedAudio := false;
     isCleared := cleared |}.

Definition someBars : list BarsData := [mkBar 1%Q; mkBar (1 # 2)%Q].

(** A desktop state: the viewport is 1024 pixels wide. *)
Definition desktop : State := setScreenWidth 1024 initialState.

(** A phone state: the viewport is 500 pixels wide. *)
Definition phone : State := setScreenWidth 500 initialState.

(** The component right after its first commit and first geometry
    computation, on a 300 pixels wide container. *)
Definition settled : World :=
  run [Render; DebounceFire] (mount (defaultProps false) idle (page 300 2%Q)).

(** The live renderer after its first tick of a recording. *)
Definition liveView (n : nat) : View :=
  {| vProps := defaultProps false;
     vControls := recording n;
     vState := state settled;
     vBarsData := Channel.result (channel settled);
     vCanvas := true |}.

Definition idleView : View :=
  {| vProps := defaultProps false;
     vControls := idle;
     vState := state settled;
     vBarsData := Channel.result (channel settled);
     vCanvas := true |}.

(** A recording becomes available, its bars are extracted and drawn;
    then the container grows from 300 to 500 pixels. *)
Definition untilDrawn : list Event :=
  [Render; DebounceFire;
   HostUpdate (defaultProps false) (recorded 0%Q false); Render;
   WorkerResponse 1 someBars; DebounceFire; Render].

Definition resize : list Event :=
  [DomChange (page 500 2%Q); WindowResize; Render; DebounceFire; Render].

Definition drawn : World :=
  run untilDrawn (mount (defaultProps false) idle (page 300 2%Q)).

Definition resizing : World :=
  run [DomChange (page 500 2%Q); WindowResize] drawn.

Definition resized : World := run resize drawn.

(** The same resize up to the recomputation, before the render that
    follows it. *)
Definition recomputed : World :=
  run [DomChange (page 500 2%Q); WindowResize; Render; DebounceFire] drawn.

Definition freshBars : list BarsData :=
  [mkBar (1 # 2)%Q; mkBar 1%Q; mkBar (1 # 4)%Q].

(** A view of a hovered, recorded waveform 600 pixels wide. *)
Definition hoveredView (x : number) (t : number) : View :=
  {| vProps := defaultProps false;
     vControls := recorded t false;
     vState :=
       setHoveredOffsetX x
         (setIsRecordedCanvasHovered true
            (setCanvasCurrentWidth 600 desktop));
     vBarsData := Channel.mkStored someBars 1 (Some 1%nat);
     vCanvas := true |}.

(** The recording is cleared while a resize is still pending. *)
Definition clearedWhileResizing : View :=
  {| vProps := defaultProps false;
     vControls := recorded 0%Q true;
     vState := state resizing;
     vBarsData := Channel.result (channel resizing);
     vCanvas := true |}.

(** The recording is cleared on a settled surface. *)
Definition clearedView : View :=
  {| vProps := defaultProps false;
     vControls := recorded 0%Q true;
     vState := state drawn;
     vBarsData := Channel.result (channel drawn);
     vCanvas := true |}.

End Sample.

(** ** The buttons and the processing text of the markup (lines 417-443
    and 516-588) *)

(** The props and the fields of [controls] that only the markup reads. *)
Record PanelProps : Type := mkPanelProps {
  isControlPanelShown : bool;
  isDownloadAudioButtonShown : bool;
  isAudioProcessingTextShown : bool
}.

(** The defaults of lines 109-110 and 127. *)
Definition defaultPanelProps : PanelProps :=
  {| isControlPanelShown := true;
     isDownloadAudioButtonShown := false;
     isAudioProcessingTextShown := true |}.

(** [recordedBlob] is a blob or null; its identity stands for the blob. *)
Record PanelControls : Type := mkPanelControls {
  recordedBlob : option nat;
  isPausedRecordedAudio : bool
}.

(** The callbacks of [controls] the buttons are wired to. *)
Inductive Handler : Type :=
| togglePauseResume
| startRecording
| stopRecording
| clearCanvas
| saveAudioFile.

Inductive Icon : Type := microphoneIcon | playIcon | pauseIcon | stopIcon.

(** What a button shows: an image with its alternative text, a text, or
    the microphone drawing of the default UI. *)
Inductive Face : Type :=
| Image (src : Icon) (alt : string)
| Text (label : string)
| MicrophoneDrawing.

(** The base class of a button: [voice-visualizer__canvas-microphone-btn],
    [__btn-left], [__btn-center], [__btn-center __btn-center-pause] or
    [__btn]. *)
Inductive Place : Type :=
| CanvasMicrophoneBtn
| BtnLeft
| BtnCenter
| BtnCenterPause
| Btn.

Record Button : Type := mkButton {
  place : Place;
  onClick : Handler;
  leftMicrophone : bool;
  visuallyHidden : bool;
  disabled : bool;
  face : Face
}.

(** [isProcessingRecordedAudio || isProcessingAudio], the condition of the
    processing text and of the [disabled] attributes. *)
Definition processing (v : View) : bool :=
  isProcessingRecordedAudio (vControls v) || isProcessingAudio (vState v).

(** The default UI over the canvas, lines 417-432. *)
Definition defaultUI (v : View) : list Button :=
  if isDefaultUIShown (vProps v) && isCleared (vControls v)
  then [mkButton CanvasMicrophoneBtn startRecording false false false
          MicrophoneDrawing]
  else [].

(** The text of lines 433-443. *)
Definition processingText (pp : PanelProps) (v : View) : bool :=
  isAudioProcessingTextShown pp && processing v.

(** The buttons of lines 516-588, in the order of the markup. *)
Definition panelButtons (pp : PanelProps) (pc : PanelControls) (v : View)
  : list Button :=
  if isControlPanelShown pp
  then
    (if isRecordingInProgress (vControls v)
     then [mkButton BtnLeft togglePauseResume
             (isPausedRecording (vControls v)) false false
             (if isPausedRecording (vControls v)
              then Image microphoneIcon "Play"
              else Image pauseIcon "Pause")]
     else [])
    ++ (if negb (isCleared (vControls v))
        then [mkButton BtnLeft togglePauseResume false
                (isRecordingInProgress (vControls v)) (processing v)
                (if isPausedRecordedAudio pc
                 then Image playIcon "Play"
                 else Image pauseIcon "Pause")]
        else [])
    ++ (if isCleared (vControls v)
        then [mkButton BtnCenter startRecording false false false
                (Image microphoneIcon "Microphone")]
        else [])
    ++ [mkButton BtnCenterPause stopRecording false
          (negb (isRecordingInProgress (vControls v))) false
          (Image stopIcon "Stop")]
    ++ (if negb (isCleared (vControls v))
        then [mkButton Btn clearCanvas false false (processing v)
                (Text "Clear")]
        else [])
    ++ (if isDownloadAudioButtonShown pp
           && match recordedBlob pc with Some _ => true | None => false end
        then [mkButton Btn saveAudioFile false false (processing v)
                (Text "Download Audio")]
        else [])
  else [].

Definition visible (b : Button) : bool := negb (visuallyHidden b).

Definition isLeft (b : Button) : bool :=
  match place b with BtnLeft => true | _ => false end.

Definition hasHandler (h : Handler) (b : Button) : bool :=
  match h, onClick b with
  | togglePauseResume, togglePauseResume => true
  | startRecording, startRecording => true
  | stopRecording, stopRecording => true
  | clearCanvas, clearCanvas => true
  | saveAudioFile, saveAudioFile => true
  | _, _ => false
  end.

(** ** What each effect leaves alone *)

Definition liveStreamFrame (w : World) :=
  (props w, controls w, state w, channel w, dom w, committed w, listeners w,
   debouncePending w, audioCurrentTime w, picksRef (refs w),
   blobDraws (log w)).

Definition resizeListenerFrame (w : World) :=
  (props w, controls w, state w, refs w, channel w, dom w, committed w,
   pointerListener (listeners w), mousemoveListener (listeners w),
   audioCurrentTime w, log w).

Definition pointerListenerFrame (w : World) :=
  (props w, controls w, state w, refs w, channel w, dom w, committed w,
   resizeListener (listeners w), mousemoveListener (listeners w),
   debouncePending w, audioCurrentTime w, log w).

Definition extractionFrame (w : World) :=
  (props w, controls w, state w, dom w, committed w,
   resizeListener (listeners w), pointerListener (listeners w),
   debouncePending w, audioCurrentTime w, indexSpeedRef (refs w),
   liveDraws (log w), blobDraws (log w), Channel.result (channel w)).

Definition staticRenderFrame (w : World) :=
  (props w, controls w, refs w, dom w, committed w, listeners w,
   debouncePending w, audioCurrentTime w, liveDraws (log w),
   Channel.submitted (channel w)).

Definition processingFrame (w : World) :=
  (props w, controls w, state w, refs w, channel w, dom w, committed w,
   listeners w, debouncePending w, audioCurrentTime w, liveDraws (log w),
   blobDraws (log w)).

(** The surface geometry held in the state. *)
Definition geometry (s : State) : Z * Z * Z * Z :=
  (canvasCurrentWidth s, canvasCurrentHeight s, canvasWidth s, screenWidth s).

(** A goal set aside while hypotheses are introduced. *)
Inductive fence (P : Prop) : Prop := fenced : P -> fence P.

(** ** Conditions on runs and their invariants *)

(** The host keeps the truncated speed at [s]. *)
Definition keepsSpeed (s : Z) (e : Event) : Prop :=
  match e with
  | HostUpdate p _ => formattedSpeed p = s
  | _ => True
  end.

Definition counterWithin (s : Z) (w : World) : Prop :=
  formattedSpeed (props w) = s
  /\ formattedSpeed (closureProps w) = s
  /\ 1 <= indexSpeedRef (refs w) <= s.

(** The extraction effect cannot submit: there is no decoded buffer, or a
    recording is in progress, or only the live recording is shown. *)
Definition blocked (p : Props) (c : Controls) : Prop :=
  bufferFromRecordedBlob c = None
  \/ isRecordingInProgress c = true
  \/ onlyRecording p = true.

Definition staysBlocked (e : Event) : Prop :=
  match e with
  | HostUpdate p c => blocked p c
  | _ => True
  end.

Definition nothingExtracted (w : World) : Prop :=
  blocked (props w) (controls w)
  /\ channel w = Channel.init []
  /\ blobDraws (log w) = []
  /\ mousemoveListener (listeners w) = false
  /\ hoveredOffsetX (state w) = 0%Q.

(** The listeners in place are those the last commit's closure asks for. *)
Definition listenersFor (v : View) (l : Listeners) : Prop :=
  resizeListener l = Some (isAvailableRecordedAudio (vControls v))
  /\ (pointerListener l = Some OnMouseEnter ->
      isAvailableRecordedAudio (vControls v) = true
      /\ isRecordedCanvasHovered (vState v) = false)
  /\ (pointerListener l = Some OnMouseLeave ->
      isAvailableRecordedAudio (vControls v) = true
      /\ isRecordedCanvasHovered (vState v) = true)
  /\ (mousemoveListener l = true ->
      bufferFromRecordedBlob (vControls v) <> None).

Definition listenersMatch (w : World) : Prop :=
  match committed w with
  | None => listeners w = mkListeners None None false
  | Some v => listenersFor v (listeners w)
  end.

(** The log only grows, and the processing flag survives as long as no
    static draw is added. *)
Definition stillProcessing (w w' : World) : Prop :=
  (exists l, log w' = log w ++ l)
  /\ (blobDraws (log w') = blobDraws (log w) ->
      isProcessingAudio (state w) = true ->
      isProcessingAudio (state w') = true).

(** ** Further sample inputs *)

Module Scenario.

(** A page whose container is 301 by 101 CSS pixels on a display with
    device pixel ratio 3/2. *)
Definition fractionalPage : Dom :=
  {| canvasContainerRef := Some (mkContainer 301 101);
     canvasRef := Some (mkCanvas 20%Q);
     audioRef := true;
     devicePixelRatio := (3 # 2)%Q;
     innerWidth := 1280 |}.

Definition fresh (d : Dom) : World := mount (defaultProps false) Sample.idle d.



Definition lastCommit (w : World) : View :=
  match committed w with
  | Some u => u
  | None => view w
  end.

(** Playback of the drawn sample recording has advanced to one minute;
    the commit for it is still to come. *)
Definition advanced : World :=
  step (HostUpdate (defaultProps false) (Sample.recorded 60%Q false))
       Sample.drawn.

End Scenario.

(** * Properties *)

(** ** Numbers *)

Example Math_trunc_positive : Math_trunc (7 # 2) = 3.
Proof. reflexivity. Qed.

Example Math_trunc_negative : Math_trunc (-7 # 2) = -3.
Proof. reflexivity. Qed.

Example Math_round_half_up : Math_round (5 # 2) = 3.
Proof. reflexivity. Qed.

Example Math_round_negative_half : Math_round (-5 # 2) = -2.
Proof. reflexivity. Qed.

Lemma Math_trunc_inject_Z (z : Z) : Math_trunc (inject_Z z) = z.
Proof. unfold Math_trunc, inject_Z; simpl. apply Z.quot_1_r. Qed.

(** Truncation is positive exactly from 1 on. *)
Lemma Math_trunc_pos_iff (x : number) : 0 < Math_trunc x <-> (1 <= x)%Q.
Proof.
  destruct x as [n d]. unfold Math_trunc, Qle. simpl.
  split; intro H.
  - destruct (Z_lt_le_dec n (Zpos d)) as [Hlt | Hge]; [exfalso | lia].
    destruct (Z_lt_le_dec n 0) as [Hneg | Hpos].
    + assert (n ÷ Zpos d <= 0) by (apply Z.quot_le_upper_bound; lia). lia.
    + rewrite Z.quot_small in H by lia. lia.
  - apply Z.quot_str_pos. lia.
Qed.

Lemma Math_trunc_pos_bool (x : number) :
  (0 <? Math_trunc x) = Qle_bool 1 x.
Proof.
  apply eq_true_iff_eq.
  rewrite Z.ltb_lt, Qle_bool_iff. apply Math_trunc_pos_iff.
Qed.

(** [Math.round] returns the integer within one half of its argument,
    the upper one at a tie. *)
Lemma Math_round_spec (x : number) :
  (inject_Z (Math_round x) - (1 # 2) <= x)%Q
  /\ (x < inject_Z (Math_round x) + (1 # 2))%Q.
Proof.
  unfold Math_round.
  pose proof (Qfloor_le (x + (1 # 2))) as Hle.
  pose proof (Qlt_floor (x + (1 # 2))) as Hlt.
  rewrite inject_Z_plus in Hlt.
  split.
  - apply Qplus_le_l with (z := (1 # 2)%Q). ring_simplify.
    ring_simplify in Hle. exact Hle.
  - apply Qplus_lt_l with (z := (1 # 2)%Q).
    eapply Qlt_le_trans; [exact Hlt |].
    apply Qle_lteq. right. unfold inject_Z at 2. ring.
Qed.

(** ** Bar width and bar pitch *)

(** C8, at a fractional gap: on a 500 pixels wide viewport with gap one
    half (greater than 0) and bar width 2, the effective bar width is 2, not
    the truncation of 2 + 1. *)
Lemma mobile_width_heuristic_fractional_gap :
  let p := Sample.setGap (1 # 2) (defaultProps false) in
  screenWidth Sample.phone < 768
  /\ (0 < gap p)%Q
  /\ formattedBarWidth p Sample.phone = 2
  /\ Math_trunc (barWidth p + 1)%Q = 3.
Proof.
  cbv zeta. repeat split; try reflexivity.
Qed.

(** C8, as amended: the effective bar width is the truncation of the
    configured bar width plus 1 when the viewport is narrower than 768
    pixels and the gap, truncated to an integer, is greater than 0 (that is,
    the configured gap is at least 1); otherwise it is the truncation of the
    configured bar width. *)
Theorem mobile_width_heuristic (p : Props) (s : State) :
  formattedBarWidth p s
  = Math_trunc (if (screenWidth s <? 768) && Qle_bool 1 (gap p)
                then (barWidth p + 1)%Q
                else barWidth p)
  /\ (0 < formattedGap p <-> (1 <= gap p)%Q).
Proof.
  split.
  - unfold formattedBarWidth, isMobile, formattedGap.
    now rewrite Math_trunc_pos_bool.
  - apply Math_trunc_pos_iff.
Qed.

(** C7, at the default props on a desktop viewport: the pitch handed to
    the live renderer is 4 while bar width plus gap is 3. *)
Lemma bar_pitch_default_props :
  let v := Sample.liveView 1 in
  formattedBarWidth (vProps v) (vState v) = 2
  /\ formattedGap (vProps v) = 1
  /\ la_unit (liveStreamArgs v) = 4
  /\ formattedBarWidth (vProps v) (vState v) + formattedGap (vProps v) = 3.
Proof.
  cbv zeta. repeat split; reflexivity.
Qed.

(** C7, as amended: the pitch handed to the live renderer is the bar width
    plus the gap times the bar width (the gap counts bar widths); it equals
    bar width plus gap exactly when the gap is 0 or the bar width is 1. *)
Theorem bar_pitch (v : View) :
  let bw := formattedBarWidth (vProps v) (vState v) in
  let g := formattedGap (vProps v) in
  la_unit (liveStreamArgs v) = bw + g * bw
  /\ la_barWidth (liveStreamArgs v) = bw
  /\ (forall w,
        log (liveStreamEffect v w) = log w
        \/ log (liveStreamEffect v w)
           = log w ++ [DrawByLiveStream (liveStreamArgs v)])
  /\ (la_unit (liveStreamArgs v) = bw + g <-> g = 0 \/ bw = 1).
Proof.
  cbv zeta. repeat split.
  - intro w. unfold liveStreamEffect.
    destruct (canvasRef (dom w)); [| now left].
    destruct (liveStreamDue v w); [right | left]; reflexivity.
  - simpl. unfold unit. intro H.
    assert (E : formattedGap (vProps v)
                * (formattedBarWidth (vProps v) (vState v) - 1) = 0) by lia.
    apply Z.mul_eq_0 in E. lia.
  - simpl. unfold unit. intros [H | H]; rewrite H; lia.
Qed.

(** ** Surface geometry *)

Lemma Math_trunc_nonneg_floor (x : number) :
  (0 <= x)%Q -> Math_trunc x = Qfloor x.
Proof.
  destruct x as [n d]. unfold Qle, Math_trunc, Qfloor. simpl. intro H.
  apply Z.quot_div_nonneg; lia.
Qed.

(** For a non-negative height the rounded height is the even integer just
    below it. *)
Lemma roundedHeight_bounds (box : Container) (d : Dom) :
  (0 <= inject_Z (clientHeight box) * devicePixelRatio d)%Q ->
  (inject_Z (roundedHeight box d)
   <= inject_Z (clientHeight box) * devicePixelRatio d)%Q
  /\ (inject_Z (clientHeight box) * devicePixelRatio d
      < inject_Z (roundedHeight box d) + 2)%Q.
Proof.
  intro Hpos. unfold roundedHeight.
  set (x := (inject_Z (clientHeight box) * devicePixelRatio d)%Q) in *.
  assert (Hhalf : (0 <= x / 2)%Q).
  { apply Qle_shift_div_l; [reflexivity |]. now ring_simplify. }
  rewrite (Math_trunc_nonneg_floor _ Hhalf).
  pose proof (Qfloor_le (x / 2)) as Hle.
  pose proof (Qlt_floor (x / 2)) as Hlt.
  rewrite inject_Z_plus in Hlt. rewrite inject_Z_mult.
  change (inject_Z 2) with 2%Q. change (inject_Z 1) with 1%Q in Hlt.
  split.
  - apply Qmult_le_r with (z := (/ 2)%Q); [reflexivity |].
    eapply Qle_trans; [| exact Hle].
    apply Qle_lteq. right. field.
  - apply Qmult_lt_r with (z := (/ 2)%Q); [reflexivity |].
    eapply Qlt_le_trans; [exact Hlt |].
    apply Qle_lteq. right. field.
Qed.

(** C4: whenever [onResize] recomputes the geometry (both element refs are
    set), the new canvas pixel width is [Math.round] of the container width
    times the device pixel ratio, that is the integer within one half of it,
    and the new canvas pixel height is an even integer, twice the truncation
    of half the scaled container height. *)
Theorem resize_geometry (p : Props) (w : World) (box : Container)
  (c : Canvas) :
  canvasContainerRef (dom w) = Some box ->
  canvasRef (dom w) = Some c ->
  let s' := state (onResize p w) in
  let dpr := devicePixelRatio (dom w) in
  canvasWidth s' = Math_round (inject_Z (clientWidth box) * dpr)%Q
  /\ (inject_Z (canvasWidth s') - (1 # 2)
      <= inject_Z (clientWidth box) * dpr)%Q
  /\ (inject_Z (clientWidth box) * dpr
      < inject_Z (canvasWidth s') + (1 # 2))%Q
  /\ canvasCurrentHeight s'
     = Math_trunc ((inject_Z (clientHeight box) * dpr) / 2)%Q * 2
  /\ Z.even (canvasCurrentHeight s') = true
  /\ canvasCurrentWidth s' = clientWidth box
  /\ screenWidth s' = innerWidth (dom w)
  /\ isResizing s' = false.
Proof.
  intros Hbox Hcanvas. cbv zeta.
  unfold onResize. rewrite Hbox, Hcanvas. simpl.
  unfold roundedWidth, roundedHeight.
  pose proof (Math_round_spec
                (inject_Z (clientWidth box) * devicePixelRatio (dom w))%Q)
    as [Hlo Hhi].
  repeat split; try assumption.
  rewrite Z.even_mul. simpl. apply orb_true_r.
Qed.

(** On a 300 by 100 container at device pixel ratio 2 the canvas becomes
    600 by 200 pixels. *)
Lemma resize_geometry_sample :
  canvasWidth (state (onResize (defaultProps false)
                        (mount (defaultProps false) Sample.idle
                           (Sample.page 300 2%Q)))) = 600
  /\ canvasCurrentHeight (state (onResize (defaultProps false)
                                   (mount (defaultProps false) Sample.idle
                                      (Sample.page 300 2%Q)))) = 200.
Proof.
  pose proof (resize_geometry (defaultProps false)
                (mount (defaultProps false) Sample.idle (Sample.page 300 2%Q))
                (mkContainer 300 100) (mkCanvas 0%Q) eq_refl eq_refl) as H.
  cbv zeta in H.
  destruct H as (Hw & _ & _ & Hh & _).
  split; [rewrite Hw | rewrite Hh]; reflexivity.
Defined.

(** ** Geometry to time *)


(** The width that divides is the layout width, not the canvas's pixel
    width: on a 300 pixels wide container at device pixel ratio 2 the canvas
    is 600 pixels wide, and a click at offset 150 seeks to the middle of the
    recording. *)
Remark seek_uses_layout_width :
  let w := run Sample.untilDrawn
             (mount (defaultProps false) Sample.idle (Sample.page 300 2%Q)) in
  canvasCurrentWidth (state w) = 300
  /\ canvasWidth (state w) = 600
  /\ exists t, seekTime (dom w) (view w) 150%Q = Some t /\ (t == 60)%Q.
Proof.
  cbv zeta. split; [vm_compute; reflexivity |].
  split; [vm_compute; reflexivity |].
  eexists. split; [vm_compute; reflexivity |]. reflexivity.
Qed.


(** ** The progress indicator *)

(** C10: the progress indicator, whose left position is
    [currentAudioTime / duration * W], is rendered only when [duration] is
    not zero and no resize is in progress (and the indicator is enabled and a
    recording is available); with [duration] zero it is not rendered, so the
    quotient is not formed. *)
Theorem progress_indicator_guard (v : View) :
  (forall ind,
      progressIndicator v = Some ind ->
      ~ (duration (vControls v) == 0)%Q
      /\ isResizing (vState v) = false
      /\ isProgressIndicatorShown (vProps v) = true
      /\ isAvailableRecordedAudio (vControls v) = true
      /\ pi_left ind
         = ((currentAudioTime (vControls v) / duration (vControls v))
            * inject_Z (canvasCurrentWidth (vState v)))%Q)
  /\ ((duration (vControls v) == 0)%Q -> progressIndicator v = None)
  /\ (isResizing (vState v) = true -> progressIndicator v = None).
Proof.
  unfold progressIndicator, truthy.
  repeat split.
  - intro Hz. apply Qeq_eq_bool in Hz. rewrite Hz in H.
    now rewrite andb_false_r in H.
  - destruct (isResizing (vState v)); [| reflexivity].
    now rewrite andb_false_r in H.
  - destruct (isProgressIndicatorShown (vProps v)); [reflexivity |].
    discriminate.
  - destruct (isAvailableRecordedAudio (vControls v)); [reflexivity |].
    now rewrite andb_false_r in H.
  - match type of H with (if ?b then _ else _) = _ => destruct b end;
      [| discriminate].
    now injection H as <-.
  - intro Hz. apply Qeq_eq_bool in Hz. rewrite Hz.
    now rewrite andb_false_r.
  - intro Hr. rewrite Hr. simpl. now rewrite andb_false_r.
Qed.

(** Half-way through the sample recording the indicator sits in the middle
    of a 600 pixels wide surface. *)
Lemma progress_indicator_sample :
  exists ind,
    progressIndicator (Sample.hoveredView 0%Q 60%Q) = Some ind
    /\ (pi_left ind == 300)%Q.
Proof.
  eexists. split; [reflexivity |].
  pose proof (proj1 (progress_indicator_guard (Sample.hoveredView 0%Q 60%Q))
                _ eq_refl) as (_ & _ & _ & _ & H).
  rewrite H. reflexivity.
Defined.

(** ** The live renderer's throttle *)

Section Tick.

Variables (v : View) (w : World).
Hypothesis mounted : canvasMounted (dom w) = true.

Lemma tick_dom : dom (liveStreamEffect v w) = dom w.
Proof.
  unfold liveStreamEffect.
  destruct (canvasRef (dom w)); [| reflexivity].
  destruct (liveStreamDue v w); reflexivity.
Qed.

Lemma tick_due :
  liveStreamDue v w = true ->
  log (liveStreamEffect v w) = log w ++ [DrawByLiveStream (liveStreamArgs v)]
  /\ indexSpeedRef (refs (liveStreamEffect v w)) = 1.
Proof.
  intro Hdue. unfold liveStreamEffect, canvasMounted in *.
  destruct (canvasRef (dom w)); [| discriminate].
  rewrite Hdue. split; reflexivity.
Qed.

Lemma tick_not_due :
  liveStreamDue v w = false ->
  liveStreamEffect v w = setIndexSpeedRef (indexSpeedRef (refs w) + 1) w.
Proof.
  intro Hdue. unfold liveStreamEffect, canvasMounted in *.
  destruct (canvasRef (dom w)); [| discriminate].
  now rewrite Hdue.
Qed.

(** With amplitude data present the tick is due exactly when the
    counter has reached the speed. *)
Lemma due_with_data (s : Z) :
  dataTick s v ->
  liveStreamDue v w = (s <=? indexSpeedRef (refs w)).
Proof.
  intros [Hs Hdata]. unfold liveStreamDue. rewrite Hs.
  destruct (oval (audioData (vControls v))); [contradiction |].
  apply orb_false_r.
Qed.

(** With an empty amplitude stream the tick is always due. *)
Lemma due_when_empty : emptyTick v -> liveStreamDue v w = true.
Proof.
  unfold emptyTick, liveStreamDue. intros ->. apply orb_true_r.
Qed.

End Tick.

Lemma liveDraws_snoc (l : list Call) (a : LiveStreamArgs) :
  liveDraws (l ++ [DrawByLiveStream a]) = S (liveDraws l).
Proof.
  unfold liveDraws. rewrite filter_app, length_app. simpl. lia.
Qed.

(** Ticks made below the threshold leave the log alone and count up. *)
Lemma ticks_below_threshold (s : Z) (vs : list View) :
  forall w : World,
    canvasMounted (dom w) = true ->
    Forall (dataTick s) vs ->
    indexSpeedRef (refs w) + Z.of_nat (List.length vs) <= s ->
    log (ticks vs w) = log w
    /\ indexSpeedRef (refs (ticks vs w))
       = indexSpeedRef (refs w) + Z.of_nat (List.length vs)
    /\ dom (ticks vs w) = dom w.
Proof.
  induction vs as [| v vs IH]; intros w Hm Hall Hle.
  - simpl. repeat split. lia.
  - inversion Hall as [| ? ? Hv Hvs]; subst.
    change (ticks (v :: vs) w) with (ticks vs (liveStreamEffect v w)).
    assert (Hdue : liveStreamDue v w = false).
    { rewrite (due_with_data v w s Hv). apply Z.leb_gt.
      simpl List.length in Hle. lia. }
    rewrite (tick_not_due v w Hm Hdue).
    destruct (IH (setIndexSpeedRef (indexSpeedRef (refs w) + 1) w))
      as (Hlog & Hidx & Hdom); try assumption.
    + simpl. simpl List.length in Hle. lia.
    + rewrite Hlog, Hidx, Hdom. simpl. simpl List.length. repeat split. lia.
Qed.

(** Any [s] consecutive ticks with data draw exactly once; a counter that
    was within the threshold is back where it was. *)
Lemma ticks_period (s : Z) (vs : list View) (w : World) :
  canvasMounted (dom w) = true ->
  Forall (dataTick s) vs ->
  Z.of_nat (List.length vs) = s ->
  1 <= s ->
  1 <= indexSpeedRef (refs w) ->
  liveDraws (log (ticks vs w)) = S (liveDraws (log w))
  /\ indexSpeedRef (refs (ticks vs w)) = Z.min (indexSpeedRef (refs w)) s.
Proof.
  intros Hm Hall Hlen Hs Hc.
  set (c := indexSpeedRef (refs w)) in *.
  set (n := Z.to_nat (s - c)).
  assert (Hn : (n < List.length vs)%nat) by (unfold n; lia).
  rewrite <- (firstn_skipn n vs) in Hall |- *.
  pose proof (firstn_length_le vs (n := n) ltac:(lia)) as Hl1.
  pose proof (length_skipn n vs) as Hl2.
  destruct (skipn n vs) as [| v vs2]; [simpl in Hl2; lia |].
  simpl List.length in Hl2.
  apply Forall_app in Hall as [Hall1 Hall2].
  inversion Hall2 as [| ? ? Hv Hvs2]; subst.
  unfold ticks. rewrite fold_left_app. fold (ticks (firstn n vs) w).
  assert (Hfit : c <= Z.of_nat (List.length vs) ->
                 c + Z.of_nat (List.length (firstn n vs))
                 <= Z.of_nat (List.length vs)) by (unfold n in *; lia).
  assert (Hfirst : log (ticks (firstn n vs) w) = log w
                   /\ Z.of_nat (List.length vs)
                      <= indexSpeedRef (refs (ticks (firstn n vs) w))
                   /\ dom (ticks (firstn n vs) w) = dom w).
  { destruct (Z_le_gt_dec c (Z.of_nat (List.length vs))) as [Hle | Hgt].
    - destruct (ticks_below_threshold _ (firstn n vs) w Hm Hall1)
        as (Hlog1 & Hidx1 & Hdom1); [fold c; lia |].
      repeat split; try assumption. fold c in Hidx1. unfold n in *. lia.
    - assert (En : n = 0%nat) by (unfold n; lia).
      rewrite En. simpl. repeat split. fold c. lia. }
  destruct Hfirst as (Hlog1 & Hidx1 & Hdom1).
  set (w1 := ticks (firstn n vs) w) in *.
  change (fold_left (fun w v => liveStreamEffect v w) (v :: vs2) w1)
    with (ticks vs2 (liveStreamEffect v w1)).
  assert (Hm1 : canvasMounted (dom w1) = true) by now rewrite Hdom1.
  assert (Hdue : liveStreamDue v w1 = true).
  { rewrite (due_with_data v w1 _ Hv). apply Z.leb_le. lia. }
  destruct (tick_due v w1 Hm1 Hdue) as [Hlog2 Hidx2].
  set (w2 := liveStreamEffect v w1) in *.
  assert (Hm2 : canvasMounted (dom w2) = true)
    by (unfold w2; now rewrite tick_dom).
  destruct (ticks_below_threshold _ vs2 w2 Hm2 Hvs2)
    as (Hlog3 & Hidx3 & _); [lia |].
  rewrite Hlog3, Hidx3, Hlog2, Hidx2, Hlog1, liveDraws_snoc.
  split; [reflexivity | unfold n in *; lia].
Qed.

(** Ticks with an empty stream draw every time. *)
Lemma ticks_empty_stream (vs : list View) :
  forall w : World,
    canvasMounted (dom w) = true ->
    Forall emptyTick vs ->
    liveDraws (log (ticks vs w))
    = (liveDraws (log w) + List.length vs)%nat.
Proof.
  induction vs as [| v vs IH]; intros w Hm Hall.
  - simpl. lia.
  - inversion Hall as [| ? ? Hv Hvs]; subst.
    change (ticks (v :: vs) w) with (ticks vs (liveStreamEffect v w)).
    destruct (tick_due v w Hm (due_when_empty v w Hv)) as [Hlog _].
    rewrite IH; [| now rewrite tick_dom | assumption].
    rewrite Hlog, liveDraws_snoc. simpl List.length. lia.
Qed.

(** C1, with an empty amplitude stream: under speed 3 and with the counter
    at 1, below the threshold, a tick draws all the same, and three
    consecutive ticks draw three times. *)
Lemma throttle_empty_stream_draws_below_threshold :
  let w1 := liveStreamEffect Sample.idleView Sample.settled in
  let w2 := liveStreamEffect Sample.idleView w1 in
  formattedSpeed (vProps Sample.idleView) = 3
  /\ indexSpeedRef (refs w1) = 1
  /\ log w2 = log w1 ++ [DrawByLiveStream (liveStreamArgs Sample.idleView)]
  /\ liveDraws
       (log (ticks [Sample.idleView; Sample.idleView; Sample.idleView] w1))
     = (3 + liveDraws (log w1))%nat.
Proof.
  cbv zeta. repeat split; reflexivity.
Qed.

(** C1, as amended: the tick counter is incremented on every tick made on
    a mounted canvas.  On a tick with amplitude data present the live draw
    is made exactly when the counter has reached the speed; the counter is
    then reset to 0 before the increment, otherwise the tick changes nothing
    but the counter.  Hence, for a speed [s] of at least 1 and a counter of
    at least 1 (as every tick leaves it), any [s] consecutive ticks with data
    draw exactly once; for speed 3, one tick in three draws and the other
    two do not. *)
Theorem throttle_with_data (s : Z) (vs : list View) (w : World) :
  canvasMounted (dom w) = true ->
  Forall (dataTick s) vs ->
  (forall v,
      dataTick s v ->
      if s <=? indexSpeedRef (refs w)
      then log (liveStreamEffect v w)
           = log w ++ [DrawByLiveStream (liveStreamArgs v)]
           /\ indexSpeedRef (refs (liveStreamEffect v w)) = 0 + 1
      else log (liveStreamEffect v w) = log w
           /\ indexSpeedRef (refs (liveStreamEffect v w))
              = indexSpeedRef (refs w) + 1)
  /\ (Z.of_nat (List.length vs) = s ->
      1 <= s ->
      1 <= indexSpeedRef (refs w) ->
      liveDraws (log (ticks vs w)) = S (liveDraws (log w))
      /\ indexSpeedRef (refs (ticks vs w))
         = Z.min (indexSpeedRef (refs w)) s).
Proof.
  intros Hm Hall. split.
  - intros v Hv. rewrite <- (due_with_data v w s Hv).
    destruct (liveStreamDue v w) eqn:Hdue.
    + apply (tick_due v w Hm Hdue).
    + rewrite (tick_not_due v w Hm Hdue). split; reflexivity.
  - intros Hlen Hs Hc. now apply (ticks_period s).
Qed.

(** Speed 3, three frames of a recording, from the counter value 1 the
    first tick leaves behind: one draw, and the counter is back at 1. *)
Lemma throttle_speed_three :
  let w1 := liveStreamEffect (Sample.liveView 1) Sample.settled in
  let vs := [Sample.liveView 2; Sample.liveView 3; Sample.liveView 4] in
  liveDraws (log (ticks vs w1)) = S (liveDraws (log w1))
  /\ indexSpeedRef (refs (ticks vs w1)) = 1.
Proof.
  cbv zeta.
  assert (Hall : Forall (dataTick 3)
                   [Sample.liveView 2; Sample.liveView 3; Sample.liveView 4]).
  { repeat constructor; discriminate. }
  exact (proj2 (throttle_with_data 3 _
                  (liveStreamEffect (Sample.liveView 1) Sample.settled)
                  eq_refl Hall)
           eq_refl ltac:(lia) ltac:(simpl; lia)).
Defined.

(** C9: with an empty amplitude stream and a mounted canvas the live draw
    is made on every tick, whatever the counter holds, and the counter
    leaves the tick at 1; the comparison with the speed only decides ticks
    that have amplitude data. *)
Theorem empty_stream_always_draws (v : View) (w : World) :
  canvasMounted (dom w) = true ->
  emptyTick v ->
  log (liveStreamEffect v w) = log w ++ [DrawByLiveStream (liveStreamArgs v)]
  /\ indexSpeedRef (refs (liveStreamEffect v w)) = 1
  /\ (forall vs,
         Forall emptyTick vs ->
         liveDraws (log (ticks vs w))
         = (liveDraws (log w) + List.length vs)%nat)
  /\ (forall v',
         oval (audioData (vControls v')) <> [] ->
         liveStreamDue v' w
         = (formattedSpeed (vProps v') <=? indexSpeedRef (refs w))).
Proof.
  intros Hm He.
  destruct (tick_due v w Hm (due_when_empty v w He)) as [Hlog Hidx].
  repeat split; try assumption.
  - intros vs Hall. now apply ticks_empty_stream.
  - intros v' Hdata.
    apply (due_with_data v' w (formattedSpeed (vProps v'))). now split.
Qed.

(** Nothing is being recorded, the counter holds 1 and the speed is 3: the
    tick draws. *)
Lemma empty_stream_sample :
  let w1 := liveStreamEffect Sample.idleView Sample.settled in
  indexSpeedRef (refs w1) = 1
  /\ liveDraws (log (liveStreamEffect Sample.idleView w1))
     = S (liveDraws (log w1)).
Proof.
  cbv zeta. split; [reflexivity |].
  destruct (empty_stream_always_draws Sample.idleView
              (liveStreamEffect Sample.idleView Sample.settled)
              eq_refl eq_refl) as (Hlog & _).
  rewrite Hlog. apply liveDraws_snoc.
Defined.

(** ** The static renderer: cleared and resizing *)

Lemma blobDraws_snoc (l : list Call) (c : Call) :
  isDrawByBlob c = false -> blobDraws (l ++ [c]) = blobDraws l.
Proof.
  intro H. unfold blobDraws. rewrite filter_app. simpl. rewrite H.
  apply app_nil_r.
Qed.

Lemma quiet_refl (w : World) : quiet w w.
Proof. split; reflexivity. Qed.

Lemma quiet_trans (w1 w2 w3 : World) :
  quiet w1 w2 -> quiet w2 w3 -> quiet w1 w3.
Proof. intros [H1 H2] [H3 H4]. split; congruence. Qed.

Lemma quiet_call (c : Call) (w : World) :
  isDrawByBlob c = false -> quiet w (call c w).
Proof. intro H. split; [reflexivity | now apply blobDraws_snoc]. Qed.

Lemma runEffect_quiet (sameDeps : View -> View -> bool)
  (body : View -> World -> World) (prev : option View) (v : View)
  (w : World) :
  quiet w (body v w) -> quiet w (runEffect sameDeps body prev v w).
Proof.
  intro H. unfold runEffect. destruct prev as [u |]; [| exact H].
  destruct (sameDeps u v); [apply quiet_refl | exact H].
Qed.

Lemma liveStreamEffect_quiet (v : View) (w : World) :
  quiet w (liveStreamEffect v w).
Proof.
  unfold liveStreamEffect. destruct (canvasRef (dom w)); [| apply quiet_refl].
  destruct (liveStreamDue v w).
  - split; [reflexivity |]. simpl. now apply blobDraws_snoc.
  - now split.
Qed.

Lemma resizeListenerEffect_quiet (v : View) (w : World) :
  quiet w (resizeListenerEffect v w).
Proof. now split. Qed.

Lemma pointerListenerEffect_quiet (v : View) (w : World) :
  quiet w (pointerListenerEffect v w).
Proof. now split. Qed.

Lemma extractionEffect_quiet (v : View) (w : World) :
  quiet w (extractionEffect v w).
Proof.
  unfold extractionEffect.
  destruct (bufferFromRecordedBlob (vControls v)); [| now split].
  simpl. destruct (canvasRef (dom w)); [| now split].
  destruct (isRecordingInProgress (vControls v)); [now split |].
  destruct (onlyRecording (vProps v)); [| now split].
  split; [reflexivity |]. simpl. now apply blobDraws_snoc.
Qed.

Lemma processingEffect_cases (v : View) (w : World) :
  processingEffect v w = w
  \/ processingEffect v w
     = call (InitialCanvasSetup (backgroundColor (vProps v))) w.
Proof.
  unfold processingEffect.
  match goal with |- context [if ?b then _ else _] => destruct b end;
    [now right | now left].
Qed.

Lemma processingEffect_quiet (v : View) (w : World) :
  quiet w (processingEffect v w).
Proof.
  destruct (processingEffect_cases v w) as [-> | ->];
    [apply quiet_refl | now apply quiet_call].
Qed.

(** The static renderer's step does nothing while the flag is set. *)
Lemma staticRenderEffect_resizing (v : View) (w : World) :
  isResizing (vState v) = true -> staticRenderEffect v w = w.
Proof.
  intro H. unfold staticRenderEffect, staticRenderSkipped. rewrite H.
  now rewrite !orb_true_r.
Qed.

Lemma render_quiet_while_resizing (w : World) :
  isResizing (state w) = true -> quiet w (render w).
Proof.
  intro H. unfold render.
  set (v := view w). set (prev := committed w).
  set (w1 := runEffect sameLiveStreamDeps liveStreamEffect prev v w).
  set (w2 := runEffect sameResizeDeps resizeListenerEffect prev v w1).
  set (w3 := runEffect samePointerDeps pointerListenerEffect prev v w2).
  set (w4 := runEffect sameExtractionDeps extractionEffect prev v w3).
  set (w5 := runEffect sameStaticRenderDeps staticRenderEffect prev v w4).
  set (w6 := runEffect sameProcessingDeps processingEffect prev v w5).
  assert (H1 : quiet w w1)
    by apply runEffect_quiet, liveStreamEffect_quiet.
  assert (H2 : quiet w1 w2)
    by apply runEffect_quiet, resizeListenerEffect_quiet.
  assert (H3 : quiet w2 w3)
    by apply runEffect_quiet, pointerListenerEffect_quiet.
  assert (H4 : quiet w3 w4)
    by apply runEffect_quiet, extractionEffect_quiet.
  assert (H5 : quiet w4 w5).
  { apply runEffect_quiet.
    rewrite staticRenderEffect_resizing by exact H. apply quiet_refl. }
  assert (H6 : quiet w5 w6)
    by apply runEffect_quiet, processingEffect_quiet.
  assert (H7 : quiet w6 (withCommitted (Some v) w6)) by now split.
  repeat (eapply quiet_trans; [eassumption |]). exact H7.
Qed.

(** An event that does not complete a resize leaves the flag set and adds
    no static draw. *)
Lemma step_while_resizing (e : Event) (w : World) :
  isResizing (state w) = true ->
  completesResize e w = false ->
  isResizing (state (step e w)) = true
  /\ blobDraws (log (step e w)) = blobDraws (log w).
Proof.
  intros Hr Hc.
  destruct e; [change (step Render w) with (render w) | simpl in * ..].
  - destruct (render_quiet_while_resizing w Hr) as [Hs Hl].
    now rewrite Hs, Hl.
  - now split.
  - now split.
  - unfold handleResize.
    destruct (resizeListener (listeners w)) as [[|] |]; now split.
  - destruct (debouncePending w); [| now split].
    unfold onResize. simpl in *.
    destruct (canvasContainerRef (dom w));
      [destruct (canvasRef (dom w)); [discriminate |] |]; now split.
  - now split.
  - destruct (pointerListener (listeners w)) as [[|] |]; now split.
  - destruct (pointerListener (listeners w)) as [[|] |]; now split.
  - destruct (mousemoveListener (listeners w)); now split.
  - destruct (committed w) as [v |]; [| now split].
    unfold handleRecordedAudioCurrentTime.
    destruct (seekTime (dom w) v clientX); [| now split].
    split; [exact Hr |]. simpl. now apply blobDraws_snoc.
Qed.

Lemma run_while_resizing (evs : list Event) :
  forall w : World,
    isResizing (state w) = true ->
    noResizeCompleted evs w ->
    isResizing (state (run evs w)) = true
    /\ blobDraws (log (run evs w)) = blobDraws (log w).
Proof.
  induction evs as [| e evs IH]; intros w Hr Hn.
  - now split.
  - destruct Hn as [Hc Hn].
    destruct (step_while_resizing e w Hr Hc) as [Hr' Hl'].
    change (run (e :: evs) w) with (run evs (step e w)).
    destruct (IH (step e w) Hr' Hn) as [Hr'' Hl''].
    split; [exact Hr'' | congruence].
Qed.

(** What a completed resize leaves in the state. *)
Lemma step_completes_resize (e : Event) (w : World) :
  completesResize e w = true ->
  e = DebounceFire
  /\ exists box,
       canvasContainerRef (dom w) = Some box
       /\ canvasCurrentWidth (state (step e w)) = clientWidth box
       /\ canvasWidth (state (step e w)) = roundedWidth box (dom w)
       /\ canvasCurrentHeight (state (step e w)) = roundedHeight box (dom w)
       /\ isResizing (state (step e w)) = false.
Proof.
  destruct e; simpl; try discriminate.
  intro H. apply andb_prop in H as [Hp Hrefs]. rewrite Hp.
  split; [reflexivity |].
  unfold onResize. simpl.
  destruct (canvasContainerRef (dom w)) as [box |]; [| discriminate].
  destruct (canvasRef (dom w)); [| discriminate].
  exists box. repeat split.
Qed.

(** C5: while the resizing flag is set the static renderer's step does
    nothing, and the only other call its effects make paints the
    background ([initialCanvasSetup]); over any run of events that does not
    complete a resize the flag stays set and no static draw is made; and the
    only event that clears the flag is the debounced [onResize], which has
    then recomputed the geometry. *)
Theorem no_bars_while_resizing (evs : list Event) (w : World) :
  isResizing (state w) = true ->
  noResizeCompleted evs w ->
  (isResizing (state (run evs w)) = true
   /\ blobDraws (log (run evs w)) = blobDraws (log w))
  /\ (forall v u,
         isResizing (vState v) = true ->
         staticRenderEffect v u = u
         /\ (processingEffect v u = u
             \/ processingEffect v u
                = call (InitialCanvasSetup (backgroundColor (vProps v))) u))
  /\ (forall e,
         isResizing (state (step e w)) = false ->
         e = DebounceFire
         /\ exists box,
              canvasContainerRef (dom w) = Some box
              /\ canvasCurrentWidth (state (step e w)) = clientWidth box
              /\ canvasWidth (state (step e w)) = roundedWidth box (dom w)
              /\ canvasCurrentHeight (state (step e w))
                 = roundedHeight box (dom w)).
Proof.
  intros Hr Hn. split; [| split].
  - now apply run_while_resizing.
  - intros v u Hv. split.
    + now apply staticRenderEffect_resizing.
    + apply processingEffect_cases.
  - intros e He.
    destruct (completesResize e w) eqn:Hc.
    + destruct (step_completes_resize e w Hc)
        as (-> & box & Hb & H1 & H2 & H3 & _).
      split; [reflexivity |]. now exists box.
    + destruct (step_while_resizing e w Hr Hc) as [Hr' _]. congruence.
Qed.

(** During the sample resize, a render, a pointer move, a late worker
    response and another render add no static draw; only the background
    has been painted since the resize began. *)
Lemma no_bars_while_resizing_sample :
  let evs :=
    [Render; MouseMove 10%Q; WorkerResponse 1 Sample.someBars; Render] in
  isResizing (state Sample.resizing) = true
  /\ blobDraws (log (run evs Sample.resizing)) = blobDraws (log Sample.drawn)
  /\ skipn (List.length (log Sample.drawn)) (log (run evs Sample.resizing))
     = [InitialCanvasSetup "transparent"].
Proof.
  cbv zeta. split; [vm_compute; reflexivity |].
  split; [| vm_compute; reflexivity].
  assert (Hn : noResizeCompleted
                 [Render; MouseMove 10%Q; WorkerResponse 1 Sample.someBars;
                  Render]
                 Sample.resizing)
    by (vm_compute; repeat split).
  destruct (no_bars_while_resizing _ Sample.resizing eq_refl Hn)
    as [[_ Hl] _].
  rewrite Hl. vm_compute. reflexivity.
Defined.

(** C6, cleared during a resize: the cleared flag is set, the resizing
    flag too, and the step returns at the guard with the stored sequence
    still in place. *)
Lemma cleared_while_resizing_keeps_bars :
  let v := Sample.clearedWhileResizing in
  let w' := staticRenderEffect v Sample.resizing in
  isCleared (vControls v) = true
  /\ isResizing (vState v) = true
  /\ Channel.bars (vBarsData v) = Sample.someBars
  /\ Channel.bars (Channel.result (channel w')) = Sample.someBars.
Proof.
  cbv zeta. repeat split; vm_compute; reflexivity.
Qed.

(** C6, as amended: when the cleared flag is set the static renderer's step
    draws no bars; when the step is not stopped by the guard before it (static
    rendering enabled, a non-empty stored sequence, a mounted canvas, no
    resize in progress) it sets the stored sequence to the empty list and
    does nothing else; when the guard stops it, the step does nothing. *)
Theorem cleared_fast_path (v : View) (w : World) :
  isCleared (vControls v) = true ->
  log (staticRenderEffect v w) = log w
  /\ (staticRenderSkipped v w = false ->
      staticRenderEffect v w = withChannel (Channel.setResult [] (channel w)) w
      /\ Channel.bars (Channel.result (channel (staticRenderEffect v w))) = [])
  /\ (staticRenderSkipped v w = true -> staticRenderEffect v w = w).
Proof.
  intro Hc. unfold staticRenderEffect. rewrite Hc.
  destruct (staticRenderSkipped v w); repeat split; discriminate.
Qed.

(** The recording is cleared on a settled surface: the stored bars go. *)
Lemma cleared_fast_path_sample :
  Channel.bars (Channel.result (channel Sample.drawn)) = Sample.someBars
  /\ Channel.bars
       (Channel.result
          (channel (staticRenderEffect Sample.clearedView Sample.drawn)))
     = [].
Proof.
  split; [vm_compute; reflexivity |].
  destruct (cleared_fast_path Sample.clearedView Sample.drawn eq_refl)
    as (_ & H & _).
  apply H. vm_compute. reflexivity.
Defined.

(** ** The channel and the static renderer *)

Lemma answered_mono (c c' : Channel.t) (r : Channel.Stored) :
  (Channel.generation c <= Channel.generation c')%nat ->
  answered c r -> answered c' r.
Proof.
  unfold answered. intros Hle H.
  destruct (Channel.answers r); [lia | exact H].
Qed.

Lemma generation_run (req : GetBarsDataParams.t) (c : Channel.t) :
  Channel.generation (Channel.run req c) = S (Channel.generation c).
Proof.
  unfold Channel.generation, Channel.run. simpl.
  rewrite length_app. simpl. lia.
Qed.

Lemma lastSubmitted_run (req : GetBarsDataParams.t) (c : Channel.t) :
  lastSubmitted (Channel.run req c) = Some req.
Proof.
  unfold lastSubmitted. rewrite generation_run.
  unfold Channel.request, Channel.run, Channel.generation. simpl.
  rewrite nth_error_app2 by lia. now rewrite Nat.sub_diag.
Qed.

Section Commit.

Variable v : View.

Lemma soundFor_same (w w' : World) :
  channel w' = channel w -> log w' = log w ->
  soundFor v w -> soundFor v w'.
Proof.
  unfold soundFor, sound. intros -> ->. trivial.
Qed.

Lemma soundFor_call (c : Call) (w : World) :
  sourcedDraw c -> soundFor v w -> soundFor v (call c w).
Proof.
  unfold soundFor, sound. simpl. intros Hc (Hv & Hr & Hl).
  repeat split; try assumption.
  apply Forall_app. split; [assumption | now constructor].
Qed.

Lemma runEffect_sound (sameDeps : View -> View -> bool)
  (body : View -> World -> World) (prev : option View) (w : World) :
  (soundFor v w -> soundFor v (body v w)) ->
  soundFor v w -> soundFor v (runEffect sameDeps body prev v w).
Proof.
  intros Hbody H. unfold runEffect. destruct prev as [u |]; [| auto].
  destruct (sameDeps u v); auto.
Qed.

Lemma liveStreamEffect_sound (w : World) :
  soundFor v w -> soundFor v (liveStreamEffect v w).
Proof.
  intro H. unfold liveStreamEffect.
  destruct (canvasRef (dom w)); [| exact H].
  destruct (liveStreamDue v w).
  - apply soundFor_same
      with (w := call (DrawByLiveStream (liveStreamArgs v)) w);
      try reflexivity.
    now apply soundFor_call.
  - now apply soundFor_same with (w := w).
Qed.

Lemma extractionEffect_sound (w : World) :
  soundFor v w -> soundFor v (extractionEffect v w).
Proof.
  intro H. unfold extractionEffect.
  destruct (bufferFromRecordedBlob (vControls v)) as [buf |];
    [| now apply soundFor_same with (w := w)].
  simpl. destruct (canvasRef (dom w));
    [| now apply soundFor_same with (w := w)].
  destruct (isRecordingInProgress (vControls v));
    [now apply soundFor_same with (w := w) |].
  destruct (onlyRecording (vProps v)).
  - apply soundFor_same with (w := call ClearCanvas w); try reflexivity.
    now apply soundFor_call.
  - destruct H as (Hv & Hr & Hl).
    assert (Hgen : (Channel.generation (channel w)
                    <= Channel.generation
                         (Channel.run (extractionRequest buf v) (channel w)))%nat)
      by (rewrite generation_run; lia).
    unfold soundFor, sound. simpl.
    repeat split; try assumption;
      now apply (answered_mono (channel w)).
Qed.

Lemma staticRenderEffect_sound (w : World) :
  soundFor v w -> soundFor v (staticRenderEffect v w).
Proof.
  intro H. unfold staticRenderEffect.
  destruct (staticRenderSkipped v w) eqn:Hskip; [exact H |].
  destruct (isCleared (vControls v)).
  - destruct H as (Hv & Hr & Hl).
    unfold soundFor, sound. simpl. repeat split; try assumption.
  - apply soundFor_call; [exact I |].
    match goal with
    | |- soundFor v (withState ?s (call ?c w)) =>
        apply soundFor_same with (w := call c w); try reflexivity
    end.
    apply soundFor_call; [| exact H].
    simpl. destruct H as (Hv & _). unfold answered in Hv.
    unfold staticRenderSkipped in Hskip.
    destruct (Channel.answers (vBarsData v)) as [n |].
    + now exists n.
    + rewrite Hv in Hskip. simpl in Hskip.
      now rewrite orb_true_r in Hskip.
Qed.

Lemma processingEffect_sound (w : World) :
  soundFor v w -> soundFor v (processingEffect v w).
Proof.
  intro H. destruct (processingEffect_cases v w) as [-> | ->];
    [exact H | now apply soundFor_call].
Qed.

End Commit.

Lemma render_sound (w : World) : sound w -> sound (render w).
Proof.
  intro H. unfold render.
  assert (H0 : soundFor (view w) w) by (split; [apply H | exact H]).
  apply (runEffect_sound _ sameLiveStreamDeps liveStreamEffect (committed w))
    in H0; [| apply liveStreamEffect_sound].
  apply (runEffect_sound _ sameResizeDeps resizeListenerEffect (committed w))
    in H0; [| now apply soundFor_same].
  apply (runEffect_sound _ samePointerDeps pointerListenerEffect (committed w))
    in H0; [| now apply soundFor_same].
  apply (runEffect_sound _ sameExtractionDeps extractionEffect (committed w))
    in H0; [| apply extractionEffect_sound].
  apply (runEffect_sound _ sameStaticRenderDeps staticRenderEffect
           (committed w)) in H0; [| apply staticRenderEffect_sound].
  apply (runEffect_sound _ sameProcessingDeps processingEffect (committed w))
    in H0; [| apply processingEffect_sound].
  exact (proj2 H0).
Qed.

(** A response of a generation other than the latest changes nothing. *)
Lemma step_stale_response (g : nat) (data : list BarsData) (w : World) :
  g <> Channel.generation (channel w) ->
  step (WorkerResponse g data) w = w.
Proof.
  intro H. simpl. unfold Channel.deliver.
  apply Nat.eqb_neq in H. rewrite H. simpl. now destruct w.
Qed.

(** The response to the last-submitted request is stored. *)
Lemma step_latest_response (data : list BarsData) (w : World) :
  (0 < Channel.generation (channel w))%nat ->
  Channel.result
    (channel (step (WorkerResponse (Channel.generation (channel w)) data) w))
  = {| Channel.bars := data;
       Channel.rid := S (Channel.rid (Channel.result (channel w)));
       Channel.answers := Some (Channel.generation (channel w)) |}.
Proof.
  intro H. simpl. unfold Channel.deliver.
  rewrite Nat.eqb_refl. apply Nat.ltb_lt in H. now rewrite H.
Qed.

Lemma step_sound (e : Event) (w : World) : sound w -> sound (step e w).
Proof.
  intro H.
  destruct e; [change (step Render w) with (render w) | simpl ..];
    try exact H.
  - now apply render_sound.
  - unfold handleResize.
    destruct (resizeListener (listeners w)) as [[|] |]; exact H.
  - destruct (debouncePending w); [| exact H].
    unfold onResize. simpl.
    destruct (canvasContainerRef (dom w)); [| exact H].
    destruct (canvasRef (dom w)); exact H.
  - unfold Channel.deliver.
    destruct ((g =? Channel.generation (channel w))%nat) eqn:Hg;
      [| exact H].
    destruct ((0 <? g)%nat) eqn:Hpos; [| exact H].
    apply Nat.eqb_eq in Hg. apply Nat.ltb_lt in Hpos.
    destruct H as [_ Hl]. split; [| exact Hl].
    unfold answered, Channel.generation in *. simpl. lia.
  - destruct (pointerListener (listeners w)) as [[|] |]; exact H.
  - destruct (pointerListener (listeners w)) as [[|] |]; exact H.
  - destruct (mousemoveListener (listeners w)); exact H.
  - destruct (committed w) as [v |]; [| exact H].
    unfold handleRecordedAudioCurrentTime.
    destruct (seekTime (dom w) v clientX); [| exact H].
    destruct H as [Hr Hl]. split; [exact Hr |]. simpl.
    apply Forall_app. split; [exact Hl | now constructor].
Qed.

Lemma run_sound (evs : list Event) :
  forall w : World, sound w -> sound (run evs w).
Proof.
  induction evs as [| e evs IH]; intros w H; [exact H |].
  apply (IH (step e w)). now apply step_sound.
Qed.

Lemma mount_sound (p : Props) (c : Controls) (d : Dom) : sound (mount p c d).
Proof. split; [reflexivity | constructor]. Qed.

(** Removing a stale response from a run does not change its outcome. *)
Lemma run_without_stale_response (evs1 evs2 : list Event) (g : nat)
  (data : list BarsData) (w : World) :
  g <> Channel.generation (channel (run evs1 w)) ->
  run (evs1 ++ WorkerResponse g data :: evs2) w = run (evs1 ++ evs2) w.
Proof.
  intro H. unfold run in *. rewrite !fold_left_app. cbn [fold_left].
  now rewrite step_stale_response.
Qed.

(** When the extraction effect submits, the request is built from the
    geometry of its render. *)
Lemma extractionEffect_submits (v : View) (w : World) :
  Channel.generation (channel (extractionEffect v w))
  <> Channel.generation (channel w) ->
  exists buf,
    bufferFromRecordedBlob (vControls v) = Some buf
    /\ lastSubmitted (channel (extractionEffect v w))
       = Some (extractionRequest buf v).
Proof.
  unfold extractionEffect.
  destruct (bufferFromRecordedBlob (vControls v)) as [buf |];
    [| simpl; congruence].
  simpl. destruct (canvasRef (dom w)); [| simpl; congruence].
  destruct (isRecordingInProgress (vControls v)); [simpl; congruence |].
  destruct (onlyRecording (vProps v)); [simpl; congruence |].
  intros _. exists buf. split; [reflexivity |]. simpl.
  apply lastSubmitted_run.
Qed.

(** C3, after a resize: the container grows from 300 to 500 pixels, the
    canvas from 600 to 1000; the commit that follows the recomputation
    submits a second request, for width 1000, and in the same commit the
    static renderer draws the stored bars, which answer the first request,
    for width 600, on the 1000 pixels wide canvas. *)
Lemma stale_bars_drawn_after_resize :
  let a := blobArgs (view Sample.recomputed) in
  In (DrawByBlob a {| drawnAnswers := Some 1%nat; latestSubmitted := 2 |})
     (log Sample.resized)
  /\ ba_barsData a = Sample.someBars
  /\ ba_canvasWidth a = 1000
  /\ option_map GetBarsDataParams.width
       (Channel.request 1 (channel Sample.resized)) = Some 600
  /\ option_map GetBarsDataParams.width
       (lastSubmitted (channel Sample.resized)) = Some 1000
  /\ ~ Forall freshDraw (log Sample.resized).
Proof.
  cbv zeta.
  assert (Hin : In (DrawByBlob (blobArgs (view Sample.recomputed))
                      {| drawnAnswers := Some 1%nat; latestSubmitted := 2 |})
                   (log Sample.resized)).
  { apply nth_error_In with (n := 6%nat). vm_compute. reflexivity. }
  split; [exact Hin |].
  repeat split; try (vm_compute; reflexivity).
  intro Hall. rewrite Forall_forall in Hall.
  specialize (Hall _ Hin). simpl in Hall. discriminate.
Qed.

(** C3, as amended: a worker response is stored only when it answers the
    last-submitted request; a response of an earlier generation is dropped
    on arrival and the run goes on as if it had never arrived, so it is
    never drawn; a request is built from the geometry of the render that
    submits it; and every sequence the static renderer draws was stored as
    the answer to a submitted request.  The drawn sequence is the one stored
    at render time: between a resubmission and the arrival of its response
    that is still the previous result. *)
Theorem stale_responses_are_dropped (p : Props) (c : Controls) (d : Dom)
  (evs : list Event) :
  let w := run evs (mount p c d) in
  (forall g data,
      g <> Channel.generation (channel w) ->
      step (WorkerResponse g data) w = w)
  /\ (forall evs1 evs2 g data,
         evs = evs1 ++ WorkerResponse g data :: evs2 ->
         g <> Channel.generation (channel (run evs1 (mount p c d))) ->
         w = run (evs1 ++ evs2) (mount p c d))
  /\ (forall data,
         (0 < Channel.generation (channel w))%nat ->
         let w' :=
           step (WorkerResponse (Channel.generation (channel w)) data) w in
         Channel.bars (Channel.result (channel w')) = data
         /\ Channel.answers (Channel.result (channel w'))
            = Some (Channel.generation (channel w')))
  /\ (forall v u,
         Channel.generation (channel (extractionEffect v u))
         <> Channel.generation (channel u) ->
         exists req,
           lastSubmitted (channel (extractionEffect v u)) = Some req
           /\ GetBarsDataParams.width req = canvasWidth (vState v)
           /\ GetBarsDataParams.height req = canvasCurrentHeight (vState v))
  /\ Forall sourcedDraw (log w).
Proof.
  cbv zeta. repeat split.
  - intros g data. apply step_stale_response.
  - intros evs1 evs2 g data -> Hg. now apply run_without_stale_response.
  - now rewrite step_latest_response.
  - rewrite step_latest_response by assumption. simpl.
    unfold Channel.deliver. rewrite Nat.eqb_refl.
    apply Nat.ltb_lt in H. now rewrite H.
  - intros v u Hg.
    destruct (extractionEffect_submits v u Hg) as (buf & _ & Hlast).
    exists (extractionRequest buf v). now repeat split.
  - apply run_sound, mount_sound.
Qed.

(** After the sample resize the late answer to the first request is
    dropped; the answer to the second is stored and the next commit draws
    it, on the canvas width the request was made for. *)
Lemma stale_responses_are_dropped_sample :
  step (WorkerResponse 1 Sample.someBars) Sample.resized = Sample.resized
  /\ last (log (run [WorkerResponse 2 Sample.freshBars; Render] Sample.resized))
          ClearCanvas
     = SetIsProcessingRecordedAudio false
  /\ nth_error
       (blobDraws
          (log (run [WorkerResponse 2 Sample.freshBars; Render] Sample.resized)))
       2
     = Some (DrawByBlob
               (mkBlobArgs Sample.freshBars 1000 2 1 "transparent" "#FFFFFF"
                  "#5e5e5e" 0%Q 5%Q 120%Q)
               {| drawnAnswers := Some 2%nat; latestSubmitted := 2 |}).
Proof.
  split; [| split; vm_compute; reflexivity].
  pose proof (proj1 (stale_responses_are_dropped (defaultProps false)
                       Sample.idle (Sample.page 300 2%Q)
                       (Sample.untilDrawn ++ Sample.resize))
                1%nat Sample.someBars) as H.
  assert (E : run (Sample.untilDrawn ++ Sample.resize)
                (mount (defaultProps false) Sample.idle (Sample.page 300 2%Q))
              = Sample.resized)
    by (vm_compute; reflexivity).
  rewrite E in H. apply H. vm_compute. discriminate.
Defined.


(** * Further properties *)

(** ** Bar pitch and surface geometry, at the edges *)

Lemma Math_trunc_nonneg (x : number) : (0 <= x)%Q -> 0 <= Math_trunc x.
Proof.
  destruct x as [n d]. unfold Qle, Math_trunc. simpl. intro H.
  apply Z.quot_pos; lia.
Qed.

Lemma Math_trunc_opp (x : number) : Math_trunc (- x)%Q = - Math_trunc x.
Proof.
  destruct x as [n d]. unfold Math_trunc. simpl. now apply Z.quot_opp_l.
Qed.

(** Equal numbers truncate alike, however they are written. *)
Lemma Math_trunc_comp (x y : number) :
  (x == y)%Q -> Math_trunc x = Math_trunc y.
Proof.
  intro E. destruct (Qlt_le_dec x 0) as [Hneg | Hpos].
  - assert (Hx : (0 <= - x)%Q) by lra.
    assert (Hy : (0 <= - y)%Q) by lra.
    assert (H : Math_trunc (- x)%Q = Math_trunc (- y)%Q).
    { rewrite !Math_trunc_nonneg_floor by assumption.
      apply Qfloor_comp. now rewrite E. }
    rewrite !Math_trunc_opp in H. lia.
  - rewrite !Math_trunc_nonneg_floor by lra. now apply Qfloor_comp.
Qed.

Lemma Math_round_inject_Z (z : Z) : Math_round (inject_Z z) = z.
Proof.
  unfold Math_round, Qfloor, Qplus, inject_Z. simpl.
  symmetry. apply Z.div_unique with (r := 1); lia.
Qed.

(** X1: the pitch is zero exactly when the effective bar width is 0 or the
    truncated gap is -1; with a configured bar width of at least 1 and a
    non-negative gap the effective bar width is at least 1 and the pitch at
    least the bar width. *)
Theorem pitch_zero_or_positive (p : Props) (s : State) :
  (unit p s = 0 <-> formattedBarWidth p s = 0 \/ formattedGap p = -1)
  /\ ((1 <= barWidth p)%Q -> (0 <= gap p)%Q ->
      1 <= formattedBarWidth p s <= unit p s).
Proof.
  split.
  - unfold unit. split.
    + intro H.
      assert (E : formattedBarWidth p s * (1 + formattedGap p) = 0) by lia.
      apply Z.mul_eq_0 in E. lia.
    + intros [H | H]; rewrite H; lia.
  - intros Hbw Hgap.
    assert (Hg : 0 <= formattedGap p) by now apply Math_trunc_nonneg.
    assert (Hb : 0 < formattedBarWidth p s).
    { unfold formattedBarWidth. apply Math_trunc_pos_iff.
      destruct (isMobile s && (0 <? formattedGap p)); lra. }
    unfold unit. nia.
Qed.

Section Recomputed.

Variables (p : Props) (w : World) (box : Container) (c : Canvas).
Hypothesis container : canvasContainerRef (dom w) = Some box.
Hypothesis canvas : canvasRef (dom w) = Some c.

Lemma onResize_state :
  state (onResize p w)
  = setIsResizing false
      (setScreenWidth (innerWidth (dom w))
         (setCanvasWidth (roundedWidth box (dom w))
            (setCanvasCurrentHeight (roundedHeight box (dom w))
               (setCanvasCurrentWidth (clientWidth box) (state w))))).
Proof. unfold onResize. now rewrite container, canvas. Qed.

Lemma onResize_refs :
  indexSpeedRef (refs (onResize p w)) = formattedSpeed p.
Proof. unfold onResize. now rewrite container, canvas. Qed.

(** X2: for a non-negative scaled container height the canvas pixel height
    is the even integer just below it: never larger than the scaled height
    and less than 2 pixels short of it. *)
Theorem canvas_height_bounds :
  (0 <= inject_Z (clientHeight box) * devicePixelRatio (dom w))%Q ->
  (inject_Z (canvasCurrentHeight (state (onResize p w)))
   <= inject_Z (clientHeight box) * devicePixelRatio (dom w))%Q
  /\ (inject_Z (clientHeight box) * devicePixelRatio (dom w)
      < inject_Z (canvasCurrentHeight (state (onResize p w))) + 2)%Q
  /\ 0 <= canvasCurrentHeight (state (onResize p w)).
Proof.
  intro Hpos. rewrite onResize_state. simpl.
  destruct (roundedHeight_bounds box (dom w) Hpos) as [Hle Hlt].
  repeat split; try assumption.
  unfold roundedHeight.
  assert (Hhalf : (0 <= inject_Z (clientHeight box)
                        * devicePixelRatio (dom w) / 2)%Q).
  { apply Qle_shift_div_l; lra. }
  apply Math_trunc_nonneg in Hhalf. lia.
Qed.

(** X3: at an integral device pixel ratio [k] the canvas pixel width is
    exactly the container width times [k]; the pixel height is the scaled
    height with its parity bit dropped, that is the scaled height itself
    when it is even and non-negative. *)
Theorem integral_ratio_exact (k : Z) :
  (devicePixelRatio (dom w) == inject_Z k)%Q ->
  canvasWidth (state (onResize p w)) = clientWidth box * k
  /\ canvasCurrentHeight (state (onResize p w))
     = clientHeight box * k - Z.rem (clientHeight box * k) 2
  /\ (0 <= clientHeight box * k ->
      Z.even (clientHeight box * k) = true ->
      canvasCurrentHeight (state (onResize p w)) = clientHeight box * k).
Proof.
  intro Hk. rewrite onResize_state. simpl.
  assert (Hw : roundedWidth box (dom w) = clientWidth box * k).
  { transitivity (Math_round (inject_Z (clientWidth box * k)));
      [| apply Math_round_inject_Z].
    unfold roundedWidth, Math_round. apply Qfloor_comp.
    rewrite Hk, inject_Z_mult. reflexivity. }
  assert (Hh : roundedHeight box (dom w)
               = clientHeight box * k - Z.rem (clientHeight box * k) 2).
  { unfold roundedHeight.
    rewrite (Math_trunc_comp _ ((clientHeight box * k) # 2)).
    - unfold Math_trunc. simpl.
      pose proof (Z.quot_rem' (clientHeight box * k) 2). lia.
    - rewrite Hk, <- inject_Z_mult.
      unfold Qdiv, Qmult, Qinv, inject_Z, Qeq. simpl. lia. }
  repeat split; try assumption.
  intros Hpos Heven. rewrite Hh.
  rewrite Z.rem_mod_nonneg by lia.
  rewrite Zeven_mod in Heven. apply Z.eqb_eq in Heven. lia.
Qed.

End Recomputed.

(** A 301 by 101 container at device pixel ratio 3/2: the scaled height is
    151.5 and the canvas 150 pixels high. *)
Lemma canvas_height_bounds_sample :
  canvasCurrentHeight
    (state (onResize (defaultProps false)
              (Scenario.fresh Scenario.fractionalPage))) = 150.
Proof.
  pose proof (canvas_height_bounds (defaultProps false)
                (Scenario.fresh Scenario.fractionalPage)
                (mkContainer 301 101) (mkCanvas 20%Q) eq_refl eq_refl) as H.
  assert (Hpos : (0 <= inject_Z 101 * (3 # 2))%Q) by (vm_compute; discriminate).
  destruct (H Hpos) as (_ & _ & _). reflexivity.
Defined.

(** A 300 by 100 container at device pixel ratio 2: a 600 by 200 canvas. *)
Lemma integral_ratio_exact_sample :
  canvasWidth
    (state (onResize (defaultProps false)
              (Scenario.fresh (Sample.page 300 2%Q)))) = 600
  /\ canvasCurrentHeight
       (state (onResize (defaultProps false)
                 (Scenario.fresh (Sample.page 300 2%Q)))) = 200.
Proof.
  destruct (integral_ratio_exact (defaultProps false)
              (Scenario.fresh (Sample.page 300 2%Q))
              (mkContainer 300 100) (mkCanvas 0%Q) eq_refl eq_refl 2
              (Qeq_refl _)) as (Hw & _ & Hh).
  split; [exact Hw | apply Hh; [simpl; lia | reflexivity]].
Defined.

(** ** Seeking and the indicators, at the edges *)






(** ** Frames of the effects *)

Lemma liveDraws_snoc_other (l : list Call) (c : Call) :
  isDrawByLiveStream c = false -> liveDraws (l ++ [c]) = liveDraws l.
Proof.
  intro H. unfold liveDraws. rewrite filter_app. simpl. rewrite H.
  now rewrite app_nil_r.
Qed.

Section Frame.

Variables (sameDeps : View -> View -> bool) (prev : option View) (v : View)
  (w : World).

Ltac skipped_or_run :=
  unfold runEffect; destruct prev as [u |];
  [destruct (sameDeps u v); [reflexivity |] |].

Lemma liveStreamEffect_frame :
  liveStreamFrame (runEffect sameDeps liveStreamEffect prev v w)
  = liveStreamFrame w.
Proof.
  skipped_or_run;
    (unfold liveStreamEffect; destruct (canvasRef (dom w)); [| reflexivity];
     destruct (liveStreamDue v w); [| reflexivity];
     unfold liveStreamFrame; simpl; now rewrite blobDraws_snoc).
Qed.

Lemma resizeListenerEffect_frame :
  resizeListenerFrame (runEffect sameDeps resizeListenerEffect prev v w)
  = resizeListenerFrame w.
Proof. skipped_or_run; reflexivity. Qed.

Lemma pointerListenerEffect_frame :
  pointerListenerFrame (runEffect sameDeps pointerListenerEffect prev v w)
  = pointerListenerFrame w.
Proof. skipped_or_run; reflexivity. Qed.

Lemma extractionEffect_frame :
  extractionFrame (runEffect sameDeps extractionEffect prev v w)
  = extractionFrame w.
Proof.
  skipped_or_run;
    (unfold extractionEffect;
     destruct (bufferFromRecordedBlob (vControls v)); [| reflexivity];
     simpl; destruct (canvasRef (dom w)); [| reflexivity];
     destruct (isRecordingInProgress (vControls v)); [reflexivity |];
     destruct (onlyRecording (vProps v)); [| reflexivity];
     unfold extractionFrame; simpl;
     now rewrite blobDraws_snoc, liveDraws_snoc_other).
Qed.

Lemma staticRenderEffect_frame :
  staticRenderFrame (runEffect sameDeps staticRenderEffect prev v w)
  = staticRenderFrame w.
Proof.
  skipped_or_run;
    (unfold staticRenderEffect;
     destruct (staticRenderSkipped v w); [reflexivity |];
     destruct (isCleared (vControls v)); [reflexivity |];
     unfold staticRenderFrame; simpl;
     now rewrite !liveDraws_snoc_other).
Qed.

Lemma processingEffect_frame :
  processingFrame (runEffect sameDeps processingEffect prev v w)
  = processingFrame w.
Proof.
  skipped_or_run;
    (destruct (processingEffect_cases v w) as [-> | ->]; [reflexivity |];
     unfold processingFrame; simpl;
     now rewrite blobDraws_snoc, liveDraws_snoc_other).
Qed.

(** Every effect only appends to the log. *)
Lemma liveStreamEffect_log :
  exists l, log (runEffect sameDeps liveStreamEffect prev v w) = log w ++ l.
Proof.
  unfold runEffect. destruct prev as [u |];
    [destruct (sameDeps u v); [exists []; now rewrite app_nil_r |] |];
    (unfold liveStreamEffect; destruct (canvasRef (dom w));
     [destruct (liveStreamDue v w);
      [eexists; reflexivity | exists []; simpl; now rewrite app_nil_r]
     | exists []; now rewrite app_nil_r]).
Qed.

Lemma extractionEffect_log :
  exists l, log (runEffect sameDeps extractionEffect prev v w) = log w ++ l.
Proof.
  unfold runEffect. destruct prev as [u |];
    [destruct (sameDeps u v); [exists []; now rewrite app_nil_r |] |];
    (unfold extractionEffect;
     destruct (bufferFromRecordedBlob (vControls v));
     [| exists []; simpl; now rewrite app_nil_r];
     simpl; destruct (canvasRef (dom w));
     [| exists []; simpl; now rewrite app_nil_r];
     destruct (isRecordingInProgress (vControls v));
     [exists []; simpl; now rewrite app_nil_r |];
     destruct (onlyRecording (vProps v));
     [eexists; reflexivity | exists []; simpl; now rewrite app_nil_r]).
Qed.

Lemma staticRenderEffect_log :
  exists l, log (runEffect sameDeps staticRenderEffect prev v w) = log w ++ l.
Proof.
  unfold runEffect. destruct prev as [u |];
    [destruct (sameDeps u v); [exists []; now rewrite app_nil_r |] |];
    (unfold staticRenderEffect;
     destruct (staticRenderSkipped v w);
     [exists []; now rewrite app_nil_r |];
     destruct (isCleared (vControls v));
     [exists []; simpl; now rewrite app_nil_r |];
     eexists; simpl; rewrite <- app_assoc; reflexivity).
Qed.

Lemma processingEffect_log :
  exists l, log (runEffect sameDeps processingEffect prev v w) = log w ++ l.
Proof.
  unfold runEffect. destruct prev as [u |];
    [destruct (sameDeps u v); [exists []; now rewrite app_nil_r |] |];
    (destruct (processingEffect_cases v w) as [-> | ->];
     [exists []; now rewrite app_nil_r | eexists; reflexivity]).
Qed.

End Frame.

Lemma fence_out (P : Prop) : fence P -> P.
Proof. now intros []. Qed.

(** Names for the worlds between the effects of one commit, with what each
    effect left alone. *)
Ltac commit_stages w :=
  unfold render;
  set (v := view w) in *;
  set (prev := committed w) in *;
  set (w1 := runEffect sameLiveStreamDeps liveStreamEffect prev v w) in *;
  set (w2 := runEffect sameResizeDeps resizeListenerEffect prev v w1) in *;
  set (w3 := runEffect samePointerDeps pointerListenerEffect prev v w2) in *;
  set (w4 := runEffect sameExtractionDeps extractionEffect prev v w3) in *;
  set (w5 := runEffect sameStaticRenderDeps staticRenderEffect prev v w4) in *;
  set (w6 := runEffect sameProcessingDeps processingEffect prev v w5) in *;
  let F1 := fresh "F" in
  pose proof (liveStreamEffect_frame sameLiveStreamDeps prev v w) as F1;
  change (liveStreamFrame w1 = liveStreamFrame w) in F1;
  let F2 := fresh "F" in
  pose proof (resizeListenerEffect_frame sameResizeDeps prev v w1) as F2;
  change (resizeListenerFrame w2 = resizeListenerFrame w1) in F2;
  let F3 := fresh "F" in
  pose proof (pointerListenerEffect_frame samePointerDeps prev v w2) as F3;
  change (pointerListenerFrame w3 = pointerListenerFrame w2) in F3;
  let F4 := fresh "F" in
  pose proof (extractionEffect_frame sameExtractionDeps prev v w3) as F4;
  change (extractionFrame w4 = extractionFrame w3) in F4;
  let F5 := fresh "F" in
  pose proof (staticRenderEffect_frame sameStaticRenderDeps prev v w4) as F5;
  change (staticRenderFrame w5 = staticRenderFrame w4) in F5;
  let F6 := fresh "F" in
  pose proof (processingEffect_frame sameProcessingDeps prev v w5) as F6;
  change (processingFrame w6 = processingFrame w5) in F6;
  unfold liveStreamFrame in F1; unfold resizeListenerFrame in F2;
  unfold pointerListenerFrame in F3; unfold extractionFrame in F4;
  unfold staticRenderFrame in F5; unfold processingFrame in F6;
  apply fence_out;
  injection F1; injection F2; injection F3; injection F4; injection F5;
  injection F6; clear F1 F2 F3 F4 F5 F6; intros; apply fenced.

Lemma run_invariant (C : Event -> Prop) (P : World -> Prop) :
  (forall e w, C e -> P w -> P (step e w)) ->
  forall evs w, Forall C evs -> P w -> P (run evs w).
Proof.
  intros Hstep evs. induction evs as [| e evs IH]; intros w Hall HP.
  - exact HP.
  - inversion Hall; subst. apply (IH (step e w)); auto.
Qed.

(** What a commit leaves alone altogether. *)
Lemma render_core (w : World) :
  props (render w) = props w
  /\ controls (render w) = controls w
  /\ dom (render w) = dom w
  /\ audioCurrentTime (render w) = audioCurrentTime w
  /\ committed (render w) = Some (view w).
Proof.
  commit_stages w. simpl. repeat split; congruence.
Qed.

(** ** The throttle counter over whole runs *)

Lemma tick_counter_within (s : Z) (sameDeps : View -> View -> bool)
  (prev : option View) (v : View) (w : World) :
  formattedSpeed (vProps v) = s ->
  1 <= indexSpeedRef (refs w) <= s ->
  1 <= indexSpeedRef (refs (runEffect sameDeps liveStreamEffect prev v w))
  <= s.
Proof.
  intros Hs Hc.
  assert (Hbody : 1 <= indexSpeedRef (refs (liveStreamEffect v w)) <= s).
  { unfold liveStreamEffect. destruct (canvasRef (dom w)); [| exact Hc].
    destruct (liveStreamDue v w) eqn:Hdue; simpl; [lia |].
    unfold liveStreamDue in Hdue. apply orb_false_elim in Hdue as [Hlt _].
    apply Z.leb_gt in Hlt. lia. }
  unfold runEffect. destruct prev as [u |]; [| exact Hbody].
  destruct (sameDeps u v); [exact Hc | exact Hbody].
Qed.

Lemma render_counterWithin (s : Z) (w : World) :
  counterWithin s w -> counterWithin s (render w).
Proof.
  intros (Hp & _ & Hc).
  pose proof (tick_counter_within s sameLiveStreamDeps (committed w) (view w)
                w Hp Hc) as H1.
  commit_stages w. unfold counterWithin, closureProps. simpl.
  replace (indexSpeedRef (refs w6)) with (indexSpeedRef (refs w1))
    by congruence.
  repeat split; try congruence; lia.
Qed.

Lemma step_counterWithin (s : Z) (e : Event) (w : World) :
  keepsSpeed s e -> counterWithin s w -> counterWithin s (step e w).
Proof.
  intros He H.
  destruct e; [change (step Render w) with (render w) | simpl ..];
    try exact H.
  - now apply render_counterWithin.
  - destruct H as (Hp & Hc & Hr). unfold counterWithin, closureProps in *.
    simpl in *. destruct (committed w); repeat split; auto; lia.
  - unfold handleResize.
    destruct (resizeListener (listeners w)) as [[|] |]; exact H.
  - destruct (debouncePending w); [| exact H].
    unfold onResize. simpl.
    destruct (canvasContainerRef (dom w)); [| exact H].
    destruct (canvasRef (dom w)); [| exact H].
    destruct H as (Hp & Hc & Hr). unfold counterWithin, closureProps in *.
    simpl in *. destruct (committed w); repeat split; auto; lia.
  - destruct (pointerListener (listeners w)) as [[|] |]; exact H.
  - destruct (pointerListener (listeners w)) as [[|] |]; exact H.
  - destruct (mousemoveListener (listeners w)); exact H.
  - destruct (committed w) as [u |] eqn:Hu; [| exact H].
    unfold handleRecordedAudioCurrentTime.
    destruct (seekTime (dom w) u clientX); [| exact H].
    destruct H as (Hp & Hc & Hr). unfold counterWithin, closureProps in *.
    simpl in *. rewrite Hu in *. repeat split; auto; lia.
Qed.

(** X6: as long as the host keeps the truncated speed at some [s] of at
    least 1, the throttle counter stays between 1 and [s] over every run of
    events from the mount on, whatever is rendered, resized or clicked. *)
Theorem counter_stays_within_speed (s : Z) (p : Props) (c : Controls)
  (d : Dom) (evs : list Event) :
  1 <= s ->
  formattedSpeed p = s ->
  Forall (keepsSpeed s) evs ->
  1 <= indexSpeedRef (refs (run evs (mount p c d))) <= s.
Proof.
  intros Hs Hp Hall.
  apply (run_invariant (keepsSpeed s) (counterWithin s)); try assumption.
  - intros e w. apply step_counterWithin.
  - unfold counterWithin, closureProps. simpl. repeat split; auto; lia.
Qed.

(** The sample recording, drawn and resized, under the default speed 3. *)
Lemma counter_stays_within_speed_sample :
  1 <= indexSpeedRef (refs Sample.resized) <= 3.
Proof.
  assert (Hall : Forall (keepsSpeed 3) (Sample.untilDrawn ++ Sample.resize))
    by (repeat constructor).
  pose proof (counter_stays_within_speed 3 (defaultProps false) Sample.idle
                (Sample.page 300 2%Q) _ ltac:(lia) eq_refl Hall) as H.
  assert (E : run (Sample.untilDrawn ++ Sample.resize)
                (mount (defaultProps false) Sample.idle (Sample.page 300 2%Q))
              = Sample.resized)
    by (vm_compute; reflexivity).
  now rewrite E in H.
Defined.

(** With nothing stored the static renderer's step does nothing. *)
Lemma staticRenderEffect_empty (sameDeps : View -> View -> bool)
  (prev : option View) (v : View) (w : World) :
  Channel.bars (vBarsData v) = [] ->
  runEffect sameDeps staticRenderEffect prev v w = w.
Proof.
  intro H.
  assert (Hbody : staticRenderEffect v w = w).
  { unfold staticRenderEffect, staticRenderSkipped. rewrite H. simpl.
    now rewrite orb_true_r. }
  unfold runEffect. destruct prev as [u |]; [| exact Hbody].
  now destruct (sameDeps u v).
Qed.

(** The calls of the later effects come after those of the layout effect. *)
Lemma commit_log (w : World) :
  exists l,
    log (render w)
    = log (runEffect sameLiveStreamDeps liveStreamEffect (committed w)
             (view w) w) ++ l.
Proof.
  destruct (extractionEffect_log sameExtractionDeps (committed w) (view w)
              (runEffect samePointerDeps pointerListenerEffect (committed w)
                 (view w)
                 (runEffect sameResizeDeps resizeListenerEffect (committed w)
                    (view w)
                    (runEffect sameLiveStreamDeps liveStreamEffect
                       (committed w) (view w) w)))) as [l4 Ex4].
  commit_stages w. fold w4 in Ex4.
  destruct (staticRenderEffect_log sameStaticRenderDeps prev v w4)
    as [l5 Ex5]. fold w5 in Ex5.
  destruct (processingEffect_log sameProcessingDeps prev v w5) as [l6 Ex6].
  fold w6 in Ex6.
  exists (l4 ++ l5 ++ l6). simpl.
  rewrite Ex6, Ex5, Ex4. rewrite <- !app_assoc.
  replace (log w3) with (log w1) by congruence. reflexivity.
Qed.

(** X7: the first commit on a mounted canvas makes the live draw, as its
    first call and exactly once, whatever the speed and the amplitude data;
    it leaves the counter at 1, asks for a geometry computation and makes no
    static draw. *)
Theorem first_commit_draws (p : Props) (c : Controls) (d : Dom) :
  canvasMounted d = true ->
  let w := step Render (mount p c d) in
  hd_error (log w)
  = Some (DrawByLiveStream (liveStreamArgs (view (mount p c d))))
  /\ liveDraws (log w) = 1%nat
  /\ blobDraws (log w) = []
  /\ indexSpeedRef (refs w) = 1
  /\ debouncePending w = true.
Proof.
  intro Hm. cbv zeta. change (step Render (mount p c d)) with (render (mount p c d)).
  remember (mount p c d) as w0 eqn:Ew0.
  assert (Hprev : committed w0 = None) by (subst; reflexivity).
  assert (Hdom : canvasMounted (dom w0) = true) by (subst; exact Hm).
  assert (Hlog : log w0 = []) by (subst; reflexivity).
  assert (Hdue : liveStreamDue (view w0) w0 = true).
  { subst. unfold liveStreamDue. simpl. now rewrite Z.leb_refl. }
  assert (Hbars : Channel.bars (vBarsData (view w0)) = [])
    by (subst; reflexivity).
  destruct (tick_due (view w0) w0 Hdom Hdue) as [Hlog1 Hidx1].
  destruct (commit_log w0) as [l Hl].
  assert (E1 : runEffect sameLiveStreamDeps liveStreamEffect (committed w0)
                 (view w0) w0 = liveStreamEffect (view w0) w0)
    by (rewrite Hprev; reflexivity).
  rewrite E1, Hlog1, Hlog in Hl.
  assert (E2 : forall u,
             debouncePending
               (runEffect sameResizeDeps resizeListenerEffect (committed w0)
                  (view w0) u) = true)
    by (intro u; rewrite Hprev; reflexivity).
  pose proof (staticRenderEffect_empty sameStaticRenderDeps (committed w0)
                (view w0)) as E5.
  specialize (E5
    (runEffect sameExtractionDeps extractionEffect (committed w0) (view w0)
       (runEffect samePointerDeps pointerListenerEffect (committed w0)
          (view w0)
          (runEffect sameResizeDeps resizeListenerEffect (committed w0)
             (view w0)
             (runEffect sameLiveStreamDeps liveStreamEffect (committed w0)
                (view w0) w0))))
    Hbars).
  split; [now rewrite Hl |].
  clear Hl. commit_stages w0. simpl.
  specialize (E2 w1). fold w2 in E2. fold w4 in E5. fold w5 in E5.
  assert (Hlive1 : liveDraws (log w1) = 1%nat).
  { replace w1 with (liveStreamEffect v w0) by (symmetry; exact E1).
    rewrite Hlog1, Hlog. reflexivity. }
  assert (Hblob5 : blobDraws (log w5) = blobDraws (log w4))
    by now rewrite E5.
  assert (Hlive2 : liveDraws (log w3) = liveDraws (log w1)) by congruence.
  assert (Hblob2 : blobDraws (log w3) = blobDraws (log w0)) by congruence.
  repeat split.
  - congruence.
  - rewrite Hlog in Hblob2. simpl in Hblob2. congruence.
  - replace (indexSpeedRef (refs w6)) with (indexSpeedRef (refs w1))
      by congruence.
    replace w1 with (liveStreamEffect v w0) by (symmetry; exact E1).
    exact Hidx1.
  - congruence.
Qed.

(** Mounted on the sample page with nothing recorded: one live draw, no
    static draw, and the counter at 1 under speed 3. *)
Lemma first_commit_draws_sample :
  liveDraws (log (step Render (Scenario.fresh (Sample.page 300 2%Q)))) = 1%nat
  /\ indexSpeedRef (refs (step Render (Scenario.fresh (Sample.page 300 2%Q))))
     = 1.
Proof.
  destruct (first_commit_draws (defaultProps false) Sample.idle
              (Sample.page 300 2%Q) eq_refl) as (_ & Hl & _ & Hi & _).
  split; [exact Hl | exact Hi].
Defined.




(** ** Listeners over whole runs *)

Section ListenerEffects.

Variables (prev : option View) (v : View) (w : World).

Lemma resizeListener_after :
  (forall u, prev = Some u ->
             resizeListener (listeners w)
             = Some (isAvailableRecordedAudio (vControls u))) ->
  resizeListener
    (listeners (runEffect sameResizeDeps resizeListenerEffect prev v w))
  = Some (isAvailableRecordedAudio (vControls v)).
Proof.
  intro H. unfold runEffect. destruct prev as [u |]; [| reflexivity].
  destruct (sameResizeDeps u v) eqn:Hs; [| reflexivity].
  rewrite (H u eq_refl). unfold sameResizeDeps in Hs.
  apply andb_prop in Hs as [_ Hs]. apply eqb_prop in Hs. now rewrite Hs.
Qed.

Lemma pointerListener_after (kind : PointerListener) :
  (forall u, prev = Some u ->
             pointerListener (listeners w) = Some kind ->
             isAvailableRecordedAudio (vControls u) = true
             /\ isRecordedCanvasHovered (vState u)
                = match kind with OnMouseEnter => false | OnMouseLeave => true end) ->
  pointerListener
    (listeners (runEffect samePointerDeps pointerListenerEffect prev v w))
  = Some kind ->
  isAvailableRecordedAudio (vControls v) = true
  /\ isRecordedCanvasHovered (vState v)
     = match kind with OnMouseEnter => false | OnMouseLeave => true end.
Proof.
  intros H Hk.
  assert (Hbody : pointerListener (listeners (pointerListenerEffect v w))
                  = Some kind ->
                  isAvailableRecordedAudio (vControls v) = true
                  /\ isRecordedCanvasHovered (vState v)
                     = match kind with
                       | OnMouseEnter => false
                       | OnMouseLeave => true
                       end).
  { unfold pointerListenerEffect. simpl.
    destruct (isAvailableRecordedAudio (vControls v)); simpl;
      [| discriminate].
    destruct (canvasMounted (dom w)); simpl; [| discriminate].
    destruct (isRecordedCanvasHovered (vState v)); destruct kind;
      intro E; try discriminate; now split. }
  unfold runEffect in Hk. destruct prev as [u |]; [| now apply Hbody].
  destruct (samePointerDeps u v) eqn:Hs; [| now apply Hbody].
  destruct (H u eq_refl Hk) as [Ha Hh].
  unfold samePointerDeps in Hs. apply andb_prop in Hs as [Hs1 Hs2].
  apply eqb_prop in Hs1, Hs2. split; congruence.
Qed.

Lemma mousemoveListener_after :
  (forall u, prev = Some u ->
             mousemoveListener (listeners w) = true ->
             bufferFromRecordedBlob (vControls u) <> None) ->
  mousemoveListener
    (listeners (runEffect sameExtractionDeps extractionEffect prev v w))
  = true ->
  bufferFromRecordedBlob (vControls v) <> None.
Proof.
  intros H Hm.
  assert (Hbody : mousemoveListener (listeners (extractionEffect v w)) = true
                  -> bufferFromRecordedBlob (vControls v) <> None).
  { unfold extractionEffect.
    destruct (bufferFromRecordedBlob (vControls v)); [discriminate |].
    simpl. discriminate. }
  unfold runEffect in Hm. destruct prev as [u |]; [| now apply Hbody].
  destruct (sameExtractionDeps u v) eqn:Hs; [| now apply Hbody].
  specialize (H u eq_refl Hm).
  unfold sameExtractionDeps in Hs.
  repeat (apply andb_prop in Hs as [Hs _]).
  unfold sameBuffer in Hs.
  destruct (bufferFromRecordedBlob (vControls u));
    destruct (bufferFromRecordedBlob (vControls v));
    try discriminate; congruence.
Qed.

End ListenerEffects.

Lemma render_listenersMatch (w : World) :
  listenersMatch w -> listenersMatch (render w).
Proof.
  intro H.
  pose proof (resizeListener_after (committed w) (view w)
                (runEffect sameLiveStreamDeps liveStreamEffect (committed w)
                   (view w) w)) as A.
  pose proof (fun kind =>
                pointerListener_after (committed w) (view w)
                  (runEffect sameResizeDeps resizeListenerEffect (committed w)
                     (view w)
                     (runEffect sameLiveStreamDeps liveStreamEffect
                        (committed w) (view w) w)) kind) as B.
  pose proof (mousemoveListener_after (committed w) (view w)
                (runEffect samePointerDeps pointerListenerEffect (committed w)
                   (view w)
                   (runEffect sameResizeDeps resizeListenerEffect
                      (committed w) (view w)
                      (runEffect sameLiveStreamDeps liveStreamEffect
                         (committed w) (view w) w)))) as C.
  unfold listenersMatch in *. rename H into Hinv.
  commit_stages w. simpl.
  assert (Hold : forall u, prev = Some u -> listenersFor u (listeners w)).
  { intros u Hu. now rewrite Hu in Hinv. }
  unfold listenersFor.
  replace (resizeListener (listeners w6)) with (resizeListener (listeners w2))
    by congruence.
  replace (pointerListener (listeners w6))
    with (pointerListener (listeners w3)) by congruence.
  replace (mousemoveListener (listeners w6))
    with (mousemoveListener (listeners w4)) by congruence.
  split; [| split; [| split]].
  - apply A. intros u Hu. destruct (Hold u Hu) as (Hr & _).
    replace (listeners w1) with (listeners w) by congruence. exact Hr.
  - apply (B OnMouseEnter). intros u Hu Hk.
    destruct (Hold u Hu) as (_ & Hp & _). apply Hp.
    replace (pointerListener (listeners w))
      with (pointerListener (listeners w2)) by congruence. exact Hk.
  - apply (B OnMouseLeave). intros u Hu Hk.
    destruct (Hold u Hu) as (_ & _ & Hp & _). apply Hp.
    replace (pointerListener (listeners w))
      with (pointerListener (listeners w2)) by congruence. exact Hk.
  - apply C. intros u Hu Hk.
    destruct (Hold u Hu) as (_ & _ & _ & Hp). apply Hp.
    replace (mousemoveListener (listeners w))
      with (mousemoveListener (listeners w3)) by congruence. exact Hk.
Qed.

Lemma step_listenersMatch (e : Event) (w : World) :
  listenersMatch w -> listenersMatch (step e w).
Proof.
  intro H.
  destruct e; [change (step Render w) with (render w) | simpl ..];
    try exact H.
  - now apply render_listenersMatch.
  - unfold handleResize.
    destruct (resizeListener (listeners w)) as [[|] |]; exact H.
  - destruct (debouncePending w); [| exact H].
    unfold onResize. simpl.
    destruct (canvasContainerRef (dom w)); [| exact H].
    destruct (canvasRef (dom w)); exact H.
  - destruct (pointerListener (listeners w)) as [[|] |]; exact H.
  - destruct (pointerListener (listeners w)) as [[|] |]; exact H.
  - destruct (mousemoveListener (listeners w)); exact H.
  - destruct (committed w) as [u |] eqn:Hu; [| exact H].
    unfold handleRecordedAudioCurrentTime.
    destruct (seekTime (dom w) u clientX); [| exact H].
    unfold listenersMatch in *. simpl. now rewrite Hu in *.
Qed.

Lemma run_listenersMatch (p : Props) (c : Controls) (d : Dom)
  (evs : list Event) :
  listenersMatch (run evs (mount p c d)).
Proof.
  apply (run_invariant (fun _ => True) listenersMatch).
  - intros e w _. apply step_listenersMatch.
  - clear. induction evs; constructor; auto.
  - reflexivity.
Qed.

(** X9: over every run from the mount on, a window resize is acted on
    only if the last commit had a recorded audio available: before the first
    commit, or when the last commit had none (as during a live recording),
    the resize changes nothing at all, not even scheduling a geometry
    recomputation; with a recording available it sets the resizing and
    processing flags and schedules the recomputation. *)
Theorem window_resize_needs_recording (p : Props) (c : Controls) (d : Dom)
  (evs : list Event) :
  let w := run evs (mount p c d) in
  (committed w = None -> step WindowResize w = w)
  /\ (forall u,
         committed w = Some u ->
         isAvailableRecordedAudio (vControls u) = false ->
         step WindowResize w = w)
  /\ (forall u,
         committed w = Some u ->
         isAvailableRecordedAudio (vControls u) = true ->
         isResizing (state (step WindowResize w)) = true
         /\ isProcessingAudio (state (step WindowResize w)) = true
         /\ debouncePending (step WindowResize w) = true
         /\ log (step WindowResize w) = log w).
Proof.
  cbv zeta. pose proof (run_listenersMatch p c d evs) as H.
  unfold listenersMatch in H. simpl step. unfold handleResize.
  split; [| split].
  - intro Hc. rewrite Hc in H. now rewrite H.
  - intros u Hc Ha. rewrite Hc in H. destruct H as (Hr & _).
    now rewrite Hr, Ha.
  - intros u Hc Ha. rewrite Hc in H. destruct H as (Hr & _).
    rewrite Hr, Ha. repeat split.
Qed.

(** X10: over every run from the mount on, a pointer event changes the
    world only through the listener the last commit put in place: a
    mouseenter only when that commit had a recording and was not hovered, a
    mouseleave only when it had a recording and was hovered, and a mousemove
    only when it had a decoded buffer. *)
Theorem pointer_events_need_listeners (p : Props) (c : Controls) (d : Dom)
  (evs : list Event) :
  let w := run evs (mount p c d) in
  (step MouseEnter w <> w ->
   exists u,
     committed w = Some u
     /\ isAvailableRecordedAudio (vControls u) = true
     /\ isRecordedCanvasHovered (vState u) = false)
  /\ (step MouseLeave w <> w ->
      exists u,
        committed w = Some u
        /\ isAvailableRecordedAudio (vControls u) = true
        /\ isRecordedCanvasHovered (vState u) = true)
  /\ (forall x,
         step (MouseMove x) w <> w ->
         exists u buf,
           committed w = Some u
           /\ bufferFromRecordedBlob (vControls u) = Some buf).
Proof.
  cbv zeta. pose proof (run_listenersMatch p c d evs) as H.
  unfold listenersMatch in H. simpl step.
  destruct (committed (run evs (mount p c d))) as [u |].
  - destruct H as (_ & He & Hl & Hm).
    split; [| split].
    + destruct (pointerListener (listeners (run evs (mount p c d))))
        as [[|] |]; try congruence.
      intros _. exists u. destruct (He eq_refl). now repeat split.
    + destruct (pointerListener (listeners (run evs (mount p c d))))
        as [[|] |]; try congruence.
      intros _. exists u. destruct (Hl eq_refl). now repeat split.
    + intros x.
      destruct (mousemoveListener (listeners (run evs (mount p c d))));
        [| congruence].
      intros _. specialize (Hm eq_refl).
      destruct (bufferFromRecordedBlob (vControls u)) as [buf |] eqn:Hb;
        [| congruence].
      exists u, buf. now split.
  - rewrite H. simpl. repeat split; congruence.
Qed.

(** The window resize is ignored while nothing is recorded and acted on
    once the sample recording is available. *)
Lemma window_resize_needs_recording_sample :
  step WindowResize Sample.settled = Sample.settled
  /\ isResizing (state (step WindowResize Sample.drawn)) = true.
Proof.
  unfold Sample.settled, Sample.drawn. split.
  - pose proof (proj1 (proj2 (window_resize_needs_recording
                                (defaultProps false) Sample.idle
                                (Sample.page 300 2%Q) [Render; DebounceFire])))
      as H.
    cbv zeta in H.
    assert (Hc : committed (run [Render; DebounceFire]
                              (mount (defaultProps false) Sample.idle
                                 (Sample.page 300 2%Q)))
                 = Some (Scenario.lastCommit Sample.settled))
      by (vm_compute; reflexivity).
    assert (Ha : isAvailableRecordedAudio
                   (vControls (Scenario.lastCommit Sample.settled)) = false)
      by (vm_compute; reflexivity).
    exact (H _ Hc Ha).
  - pose proof (proj2 (proj2 (window_resize_needs_recording
                                (defaultProps false) Sample.idle
                                (Sample.page 300 2%Q) Sample.untilDrawn)))
      as H.
    cbv zeta in H.
    assert (Hc : committed (run Sample.untilDrawn
                              (mount (defaultProps false) Sample.idle
                                 (Sample.page 300 2%Q)))
                 = Some (Scenario.lastCommit Sample.drawn))
      by (vm_compute; reflexivity).
    assert (Ha : isAvailableRecordedAudio
                   (vControls (Scenario.lastCommit Sample.drawn)) = true)
      by (vm_compute; reflexivity).
    exact (proj1 (H _ Hc Ha)).
Defined.

(** On the drawn sample recording a mouseenter is acted on, and the last
    commit was not hovered. *)
Lemma pointer_events_need_listeners_sample :
  exists u,
    committed Sample.drawn = Some u
    /\ isAvailableRecordedAudio (vControls u) = true
    /\ isRecordedCanvasHovered (vState u) = false.
Proof.
  unfold Sample.drawn.
  pose proof (proj1 (pointer_events_need_listeners (defaultProps false)
                       Sample.idle (Sample.page 300 2%Q) Sample.untilDrawn))
    as H.
  cbv zeta in H. apply H. intro E.
  apply (f_equal (fun w => isRecordedCanvasHovered (state w))) in E.
  vm_compute in E. discriminate.
Defined.

(** ** The processing flag and the blocked extraction over whole runs *)

Lemma stillProcessing_refl (w : World) : stillProcessing w w.
Proof. split; [exists []; now rewrite app_nil_r | auto]. Qed.

Lemma blobDraws_app (l1 l2 : list Call) :
  blobDraws (l1 ++ l2) = blobDraws l1 ++ blobDraws l2.
Proof. apply filter_app. Qed.

Lemma app_eq_self (A : Type) (l l' : list A) : l ++ l' = l -> l' = [].
Proof.
  intro H. apply (f_equal (@List.length A)) in H.
  rewrite length_app in H. destruct l'; [reflexivity | simpl in H; lia].
Qed.

Lemma stillProcessing_trans (w1 w2 w3 : World) :
  stillProcessing w1 w2 -> stillProcessing w2 w3 -> stillProcessing w1 w3.
Proof.
  intros [[l1 E1] H1] [[l2 E2] H2]. split.
  - exists (l1 ++ l2). now rewrite E2, E1, app_assoc.
  - intros Hb Hp.
    rewrite E2, E1, !blobDraws_app, <- app_assoc in Hb.
    apply app_eq_self in Hb. apply app_eq_nil in Hb as [Hb1 Hb2].
    apply H2.
    + now rewrite E2, blobDraws_app, Hb2, app_nil_r.
    + apply H1; [| exact Hp]. now rewrite E1, blobDraws_app, Hb1, app_nil_r.
Qed.

(** A step of the static renderer that adds no static draw leaves the
    state alone. *)
Lemma staticRenderEffect_no_draw (sameDeps : View -> View -> bool)
  (prev : option View) (v : View) (w : World) :
  blobDraws (log (runEffect sameDeps staticRenderEffect prev v w))
  = blobDraws (log w) ->
  state (runEffect sameDeps staticRenderEffect prev v w) = state w.
Proof.
  assert (Hbody : blobDraws (log (staticRenderEffect v w)) = blobDraws (log w)
                  -> state (staticRenderEffect v w) = state w).
  { unfold staticRenderEffect.
    destruct (staticRenderSkipped v w); [reflexivity |].
    destruct (isCleared (vControls v)); [reflexivity |].
    simpl. rewrite <- app_assoc, blobDraws_app. simpl.
    intro H. apply app_eq_self in H. discriminate. }
  unfold runEffect. destruct prev as [u |]; [| exact Hbody].
  destruct (sameDeps u v); [reflexivity | exact Hbody].
Qed.

Lemma render_stillProcessing (w : World) : stillProcessing w (render w).
Proof.
  destruct (commit_log w) as [l Hl].
  destruct (liveStreamEffect_log sameLiveStreamDeps (committed w) (view w) w)
    as [l1 Hl1].
  pose proof (staticRenderEffect_no_draw sameStaticRenderDeps (committed w)
                (view w)
                (runEffect sameExtractionDeps extractionEffect (committed w)
                   (view w)
                   (runEffect samePointerDeps pointerListenerEffect
                      (committed w) (view w)
                      (runEffect sameResizeDeps resizeListenerEffect
                         (committed w) (view w)
                         (runEffect sameLiveStreamDeps liveStreamEffect
                            (committed w) (view w) w))))) as Hstatic.
  split.
  - exists (l1 ++ l). now rewrite Hl, Hl1, app_assoc.
  - clear Hl Hl1. commit_stages w. simpl. intros Hb Hp.
    assert (E : state w5 = state w4).
    { apply Hstatic.
      replace (blobDraws (log w5)) with (blobDraws (log w6)) by congruence.
      rewrite Hb. congruence. }
    replace (state w6) with (state w) by congruence. exact Hp.
Qed.

Lemma step_stillProcessing (e : Event) (w : World) :
  stillProcessing w (step e w).
Proof.
  destruct e; [change (step Render w) with (render w) | simpl ..];
    try apply stillProcessing_refl.
  - apply render_stillProcessing.
  - split; [exists []; simpl; now rewrite app_nil_r | auto].
  - split; [exists []; simpl; now rewrite app_nil_r | auto].
  - unfold handleResize.
    destruct (resizeListener (listeners w)) as [[|] |];
      try apply stillProcessing_refl.
    split; [exists []; simpl; now rewrite app_nil_r | auto].
  - destruct (debouncePending w); [| apply stillProcessing_refl].
    unfold onResize. simpl.
    destruct (canvasContainerRef (dom w));
      [destruct (canvasRef (dom w)) |];
      (split; [exists []; simpl; now rewrite app_nil_r | auto]).
  - split; [exists []; simpl; now rewrite app_nil_r | auto].
  - destruct (pointerListener (listeners w)) as [[|] |];
      try apply stillProcessing_refl.
    split; [exists []; simpl; now rewrite app_nil_r | auto].
  - destruct (pointerListener (listeners w)) as [[|] |];
      try apply stillProcessing_refl.
    split; [exists []; simpl; now rewrite app_nil_r | auto].
  - destruct (mousemoveListener (listeners w));
      [| apply stillProcessing_refl].
    split; [exists []; simpl; now rewrite app_nil_r | auto].
  - destruct (committed w) as [u |]; [| apply stillProcessing_refl].
    unfold handleRecordedAudioCurrentTime.
    destruct (seekTime (dom w) u clientX); [| apply stillProcessing_refl].
    split; [eexists; reflexivity | auto].
Qed.

Lemma run_stillProcessing (evs : list Event) :
  forall w : World, stillProcessing w (run evs w).
Proof.
  induction evs as [| e evs IH]; intro w.
  - apply stillProcessing_refl.
  - apply stillProcessing_trans with (w2 := step e w).
    + apply step_stillProcessing.
    + apply (IH (step e w)).
Qed.

Lemma hoverIndicator_hidden_while_processing (v : View) :
  isProcessingAudio (vState v) = true -> hoverIndicator v = None.
Proof.
  intro H. unfold hoverIndicator. rewrite H. simpl.
  now rewrite andb_false_r.
Qed.

(** The buttons of the panel one by one. *)
Ltac button_cases H :=
  unfold panelButtons in H;
  destruct (isControlPanelShown _); [| contradiction];
  repeat (apply in_app_or in H; destruct H as [H | H]);
  repeat match type of H with
         | In _ (if ?b then _ else _) => destruct b eqn:?
         end;
  simpl in H; repeat (destruct H as [H | H]); try contradiction; subst.

Lemma panelButtons_disabled (pp : PanelProps) (pc : PanelControls)
  (v : View) (b : Button) :
  In b (panelButtons pp pc v) ->
  (disabled b = true ->
   processing v = true
   /\ (hasHandler togglePauseResume b = true
       \/ hasHandler clearCanvas b = true
       \/ hasHandler saveAudioFile b = true))
  /\ (hasHandler clearCanvas b = true \/ hasHandler saveAudioFile b = true ->
      disabled b = processing v)
  /\ (hasHandler startRecording b = true \/ hasHandler stopRecording b = true ->
      disabled b = false).
Proof.
  intro H. button_cases H; simpl;
    (split; [| split];
     [ intro Hd; try discriminate; split; auto
     | intros [Hh | Hh]; try discriminate; reflexivity
     | intros [Hh | Hh]; try discriminate; reflexivity ]).
Qed.

(** X11: once the processing flag is set (as a window resize sets it), it
    stays set over every run of events that adds no static draw: only the
    static renderer's draw clears it.  Until then the hover indicator is not
    rendered, the processing text is shown when enabled, and a Clear or
    Download button, where rendered, is disabled. *)
Theorem processing_until_static_draw (evs : list Event) (w : World) :
  isProcessingAudio (state w) = true ->
  blobDraws (log (run evs w)) = blobDraws (log w) ->
  isProcessingAudio (state (run evs w)) = true
  /\ hoverIndicator (view (run evs w)) = None
  /\ (forall pp,
         isAudioProcessingTextShown pp = true ->
         processingText pp (view (run evs w)) = true)
  /\ (forall pp pc b,
         In b (panelButtons pp pc (view (run evs w))) ->
         hasHandler clearCanvas b = true \/ hasHandler saveAudioFile b = true ->
         disabled b = true).
Proof.
  intros Hp Hb.
  destruct (run_stillProcessing evs w) as [_ H].
  specialize (H Hb Hp).
  assert (Hproc : processing (view (run evs w)) = true).
  { unfold processing. simpl. rewrite H. apply orb_true_r. }
  repeat split.
  - exact H.
  - now apply hoverIndicator_hidden_while_processing.
  - intros pp Hpp. unfold processingText. now rewrite Hpp, Hproc.
  - intros pp pc b Hin Hh.
    destruct (panelButtons_disabled pp pc _ b Hin) as (_ & Hd & _).
    now rewrite (Hd Hh).
Qed.

(** During the sample resize, two commits, a pointer move and a late
    response later, the component is still processing. *)
Lemma processing_until_static_draw_sample :
  isProcessingAudio
    (state (run [Render; MouseMove 10%Q; WorkerResponse 1 Sample.someBars;
                 Render] Sample.resizing)) = true.
Proof.
  assert (Hp : isProcessingAudio (state Sample.resizing) = true)
    by (vm_compute; reflexivity).
  assert (Hb : blobDraws
                 (log (run [Render; MouseMove 10%Q;
                            WorkerResponse 1 Sample.someBars; Render]
                         Sample.resizing))
               = blobDraws (log Sample.resizing))
    by (vm_compute; reflexivity).
  exact (proj1 (processing_until_static_draw _ _ Hp Hb)).
Defined.

Lemma extractionEffect_blocked (sameDeps : View -> View -> bool)
  (prev : option View) (v : View) (w : World) :
  blocked (vProps v) (vControls v) ->
  mousemoveListener (listeners w) = false ->
  channel (runEffect sameDeps extractionEffect prev v w) = channel w
  /\ mousemoveListener (listeners (runEffect sameDeps extractionEffect prev v w))
     = false.
Proof.
  intros Hb Hm.
  assert (Hbody : channel (extractionEffect v w) = channel w
                  /\ mousemoveListener (listeners (extractionEffect v w))
                     = false).
  { unfold extractionEffect.
    destruct (bufferFromRecordedBlob (vControls v)) eqn:Hbuf;
      [| now split].
    simpl. destruct (canvasRef (dom w)); [| now split].
    destruct (isRecordingInProgress (vControls v)) eqn:Hrec; [now split |].
    destruct (onlyRecording (vProps v)) eqn:Honly; [now split |].
    destruct Hb as [Hb | [Hb | Hb]]; congruence. }
  unfold runEffect. destruct prev as [u |]; [| exact Hbody].
  destruct (sameDeps u v); [now split | exact Hbody].
Qed.

Lemma render_nothingExtracted (w : World) :
  nothingExtracted w -> nothingExtracted (render w).
Proof.
  intros (Hb & Hc & Hl & Hm & Hx).
  assert (Hbars : Channel.bars (vBarsData (view w)) = []).
  { simpl. now rewrite Hc. }
  pose proof (fun u =>
                extractionEffect_blocked sameExtractionDeps (committed w)
                  (view w) u Hb) as E4.
  pose proof (fun u =>
                staticRenderEffect_empty sameStaticRenderDeps (committed w)
                  (view w) u Hbars) as E5.
  commit_stages w. unfold nothingExtracted. simpl.
  assert (Hm3 : mousemoveListener (listeners w3) = false) by congruence.
  destruct (E4 w3 Hm3) as [Ec4 Em4]. fold w4 in Ec4, Em4.
  specialize (E5 w4). fold w5 in E5.
  repeat split.
  - congruence.
  - replace (channel w6) with (channel w5) by congruence.
    rewrite E5, Ec4. congruence.
  - replace (blobDraws (log w6)) with (blobDraws (log w5)) by congruence.
    rewrite E5. congruence.
  - replace (listeners w6) with (listeners w5) by congruence.
    now rewrite E5.
  - replace (state w6) with (state w5) by congruence.
    rewrite E5. congruence.
Qed.

Lemma step_nothingExtracted (e : Event) (w : World) :
  staysBlocked e -> nothingExtracted w -> nothingExtracted (step e w).
Proof.
  intros He H.
  destruct e; [change (step Render w) with (render w) | simpl ..];
    try exact H.
  - now apply render_nothingExtracted.
  - destruct H as (_ & H). split; [exact He | exact H].
  - unfold handleResize.
    destruct (resizeListener (listeners w)) as [[|] |]; exact H.
  - destruct (debouncePending w); [| exact H].
    unfold onResize. simpl.
    destruct (canvasContainerRef (dom w)); [| exact H].
    destruct (canvasRef (dom w)); exact H.
  - destruct H as (Hb & Hc & Hl & Hm & Hx).
    unfold nothingExtracted. simpl. rewrite Hc.
    unfold Channel.deliver. simpl.
    destruct g; simpl; repeat split; assumption.
  - destruct (pointerListener (listeners w)) as [[|] |]; exact H.
  - destruct (pointerListener (listeners w)) as [[|] |]; exact H.
  - destruct H as (Hb & Hc & Hl & Hm & Hx). rewrite Hm.
    repeat split; assumption.
  - destruct (committed w) as [u |]; [| exact H].
    unfold handleRecordedAudioCurrentTime.
    destruct (seekTime (dom w) u clientX); [| exact H].
    destruct H as (Hb & Hc & Hl & Hm & Hx).
    unfold nothingExtracted. simpl. rewrite blobDraws_snoc by reflexivity.
    repeat split; assumption.
Qed.

(** X12: as long as the host supplies no decoded buffer, or a recording is
    in progress, or only the live recording is shown, no extraction request
    is ever submitted and nothing is ever stored, whatever responses arrive;
    the static renderer never draws and pointer moves are ignored.  In
    only-recording mode the extraction effect calls [clearCanvas] instead of
    submitting. *)
Theorem nothing_extracted_while_blocked (p : Props) (c : Controls) (d : Dom)
  (evs : list Event) :
  blocked p c ->
  Forall staysBlocked evs ->
  let w := run evs (mount p c d) in
  Channel.submitted (channel w) = []
  /\ Channel.bars (Channel.result (channel w)) = []
  /\ blobDraws (log w) = []
  /\ mousemoveListener (listeners w) = false
  /\ hoveredOffsetX (state w) = 0%Q
  /\ (forall v u buf,
         onlyRecording (vProps v) = true ->
         bufferFromRecordedBlob (vControls v) = Some buf ->
         isRecordingInProgress (vControls v) = false ->
         canvasMounted (dom u) = true ->
         log (extractionEffect v u) = log u ++ [ClearCanvas]
         /\ channel (extractionEffect v u) = channel u).
Proof.
  intros Hb Hall. cbv zeta.
  assert (H : nothingExtracted (run evs (mount p c d))).
  { apply (run_invariant staysBlocked nothingExtracted); try assumption.
    - intros e w. apply step_nothingExtracted.
    - unfold nothingExtracted. simpl. repeat split. exact Hb. }
  destruct H as (_ & Hc & Hl & Hm & Hx). rewrite Hc.
  repeat split; try assumption.
  - unfold extractionEffect. rewrite H0. simpl.
    unfold canvasMounted in H2. destruct (canvasRef (dom u)); [| discriminate].
    now rewrite H1, H.
  - unfold extractionEffect. rewrite H0. simpl.
    unfold canvasMounted in H2. destruct (canvasRef (dom u)); [| discriminate].
    now rewrite H1, H.
Qed.

(** Only the live recording is shown: the recording ends, its buffer
    arrives and a stray response with it; nothing is submitted, stored or
    drawn by the static renderer. *)
Lemma nothing_extracted_while_blocked_sample :
  let evs :=
    [Render; DebounceFire;
     HostUpdate (defaultProps true) (Sample.recorded 0%Q false); Render;
     WorkerResponse 1 Sample.someBars; Render; MouseMove 5%Q] in
  let w := run evs (mount (defaultProps true) Sample.idle (Sample.page 300 2%Q)) in
  Channel.submitted (channel w) = [] /\ blobDraws (log w) = [].
Proof.
  cbv zeta.
  assert (Hb : blocked (defaultProps true) Sample.idle) by (now left).
  assert (Hall : Forall staysBlocked
                   [Render; DebounceFire;
                    HostUpdate (defaultProps true) (Sample.recorded 0%Q false);
                    Render; WorkerResponse 1 Sample.someBars; Render;
                    MouseMove 5%Q]).
  { repeat (apply Forall_cons;
            [first [exact I | right; right; reflexivity] |]).
    apply Forall_nil. }
  destruct (nothing_extracted_while_blocked (defaultProps true) Sample.idle
              (Sample.page 300 2%Q) _ Hb Hall) as (Hs & _ & Hl & _).
  split; [exact Hs | exact Hl].
Defined.

(** ** The buttons *)

(** X13: among the rendered buttons only those that act on the finished
    recording are ever disabled, and only while audio is processed: a Clear
    or Download button is disabled exactly while processing, so is a visible
    play/pause button outside a recording; the start and stop buttons, the
    default microphone button and the visible pause button of a running
    recording are never disabled. *)
Theorem buttons_disabled_while_processing (pp : PanelProps)
  (pc : PanelControls) (v : View) (b : Button) :
  In b (panelButtons pp pc v ++ defaultUI v) ->
  (disabled b = true ->
   processing v = true
   /\ (hasHandler togglePauseResume b = true
       \/ hasHandler clearCanvas b = true
       \/ hasHandler saveAudioFile b = true))
  /\ (hasHandler clearCanvas b = true \/ hasHandler saveAudioFile b = true ->
      disabled b = processing v)
  /\ (hasHandler togglePauseResume b = true ->
      visible b = true ->
      disabled b
      = processing v && negb (isRecordingInProgress (vControls v)))
  /\ (hasHandler startRecording b = true \/ hasHandler stopRecording b = true ->
      disabled b = false).
Proof.
  intro H. apply in_app_or in H. destruct H as [H | H].
  - destruct (panelButtons_disabled pp pc v b H) as (H1 & H2 & H3).
    split; [exact H1 |]. split; [exact H2 |]. split; [| exact H3].
    clear H1 H2 H3. button_cases H; unfold visible; simpl;
      intros Hh Hv; try discriminate.
    + symmetry. apply andb_false_r.
    + rewrite Hv. symmetry. apply andb_true_r.
  - unfold defaultUI in H.
    destruct (isDefaultUIShown (vProps v) && isCleared (vControls v));
      [| contradiction].
    destruct H as [<- | []]. simpl.
    split; [discriminate |]. split; [intros [? | ?]; discriminate |].
    split; [discriminate | reflexivity].
Qed.

(** During the sample resize the Clear button is rendered and disabled. *)
Lemma buttons_disabled_while_processing_sample :
  In (mkButton Btn clearCanvas false false true (Text "Clear"))
     (panelButtons defaultPanelProps (mkPanelControls None true)
        (view Sample.resizing))
  /\ processing (view Sample.resizing) = true.
Proof.
  assert (Hin : In (mkButton Btn clearCanvas false false true (Text "Clear"))
                  (panelButtons defaultPanelProps (mkPanelControls None true)
                     (view Sample.resizing)
                   ++ defaultUI (view Sample.resizing))).
  { vm_compute. right. right. left. reflexivity. }
  split.
  - vm_compute. right. right. left. reflexivity.
  - destruct (buttons_disabled_while_processing _ _ _ _ Hin)
      as (_ & H & _).
    symmetry. apply H. left. reflexivity.
Defined.

(** X14: the panel never shows two left buttons at once; when the panel is
    shown there is exactly one stop button, visible exactly while a
    recording is in progress; and the start button is rendered exactly when
    the component is cleared, the Clear button exactly when it is not, so
    never both. *)
Theorem panel_layout (pp : PanelProps) (pc : PanelControls) (v : View) :
  (List.length (filter (fun b => isLeft b && visible b)
                  (panelButtons pp pc v)) <= 1)%nat
  /\ (isControlPanelShown pp = true ->
      List.length (filter (hasHandler stopRecording) (panelButtons pp pc v))
      = 1%nat
      /\ forall b,
           In b (panelButtons pp pc v) ->
           hasHandler stopRecording b = true ->
           visible b = isRecordingInProgress (vControls v))
  /\ existsb (hasHandler startRecording) (panelButtons pp pc v)
     = isControlPanelShown pp && isCleared (vControls v)
  /\ existsb (hasHandler clearCanvas) (panelButtons pp pc v)
     = isControlPanelShown pp && negb (isCleared (vControls v))
  /\ (forall b,
         In b (panelButtons pp pc v) ->
         visuallyHidden b = true ->
         hasHandler stopRecording b = true
         \/ hasHandler togglePauseResume b = true).
Proof.
  split; [| split; [| split; [| split]]].
  - unfold panelButtons, visible.
    destruct (isControlPanelShown pp); [| simpl; lia].
    destruct (isRecordingInProgress (vControls v));
      destruct (isCleared (vControls v));
      destruct (isDownloadAudioButtonShown pp);
      destruct (recordedBlob pc); simpl; lia.
  - intro Hshown. split.
    + unfold panelButtons. rewrite Hshown.
      destruct (isRecordingInProgress (vControls v));
        destruct (isCleared (vControls v));
        destruct (isDownloadAudioButtonShown pp);
        destruct (recordedBlob pc); reflexivity.
    + intros b H Hh. button_cases H; unfold visible; simpl in *;
        try discriminate.
      apply negb_involutive.
  - unfold panelButtons.
    destruct (isControlPanelShown pp); [| reflexivity].
    destruct (isRecordingInProgress (vControls v));
      destruct (isCleared (vControls v));
      destruct (isDownloadAudioButtonShown pp);
      destruct (recordedBlob pc); reflexivity.
  - unfold panelButtons.
    destruct (isControlPanelShown pp); [| reflexivity].
    destruct (isRecordingInProgress (vControls v));
      destruct (isCleared (vControls v));
      destruct (isDownloadAudioButtonShown pp);
      destruct (recordedBlob pc); reflexivity.
  - intros b H Hh. button_cases H; simpl in *; try discriminate; auto.
Qed.


(** ** Geometry and playback over commits *)

Lemma staticRenderEffect_geometry (sameDeps : View -> View -> bool)
  (prev : option View) (v : View) (w : World) :
  geometry (state (runEffect sameDeps staticRenderEffect prev v w))
  = geometry (state w).
Proof.
  assert (Hbody : geometry (state (staticRenderEffect v w))
                  = geometry (state w)).
  { unfold staticRenderEffect.
    destruct (staticRenderSkipped v w); [reflexivity |].
    destruct (isCleared (vControls v)); reflexivity. }
  unfold runEffect. destruct prev as [u |]; [| exact Hbody].
  destruct (sameDeps u v); [reflexivity | exact Hbody].
Qed.

Lemma render_geometry (w : World) :
  geometry (state (render w)) = geometry (state w).
Proof.
  pose proof (fun u =>
                staticRenderEffect_geometry sameStaticRenderDeps (committed w)
                  (view w) u) as E5.
  commit_stages w. simpl. specialize (E5 w4). fold w5 in E5.
  replace (state w6) with (state w5) by congruence.
  rewrite E5. congruence.
Qed.

Lemma step_geometry (e : Event) (w : World) :
  completesResize e w = false ->
  geometry (state (step e w)) = geometry (state w).
Proof.
  intro Hc.
  destruct e; [change (step Render w) with (render w) | simpl in * ..];
    try reflexivity.
  - apply render_geometry.
  - unfold handleResize.
    destruct (resizeListener (listeners w)) as [[|] |]; reflexivity.
  - destruct (debouncePending w); [| reflexivity].
    unfold onResize. simpl in *.
    destruct (canvasContainerRef (dom w));
      [destruct (canvasRef (dom w)); [discriminate |] |]; reflexivity.
  - destruct (pointerListener (listeners w)) as [[|] |]; reflexivity.
  - destruct (pointerListener (listeners w)) as [[|] |]; reflexivity.
  - destruct (mousemoveListener (listeners w)); reflexivity.
  - destruct (committed w) as [u |]; [| reflexivity].
    unfold handleRecordedAudioCurrentTime.
    destruct (seekTime (dom w) u clientX); reflexivity.
Qed.

Lemma hoverIndicator_hidden_on_mobile (v : View) :
  isMobile (vState v) = true -> hoverIndicator v = None.
Proof.
  intro H. unfold hoverIndicator. rewrite H. simpl.
  now rewrite andb_false_r.
Qed.

(** X15: the four geometry values of the state (layout width, pixel width,
    pixel height, viewport width) change only when a geometry recomputation
    completes: over every run of events in which none does they stay as they
    were.  From the mount on they are therefore all 0 until the first
    recomputation; until then the viewport counts as mobile and the hover
    indicator is not rendered. *)
Theorem geometry_changes_only_on_resize (evs : list Event) (w : World) :
  noResizeCompleted evs w ->
  geometry (state (run evs w)) = geometry (state w)
  /\ (forall p c d,
         w = mount p c d ->
         geometry (state (run evs w)) = (0, 0, 0, 0)
         /\ isMobile (state (run evs w)) = true
         /\ hoverIndicator (view (run evs w)) = None).
Proof.
  intro Hn.
  assert (H : geometry (state (run evs w)) = geometry (state w)).
  { revert w Hn. induction evs as [| e evs IH]; intros w Hn.
    - reflexivity.
    - destruct Hn as [Hc Hn].
      change (run (e :: evs) w) with (run evs (step e w)).
      rewrite (IH (step e w) Hn). now apply step_geometry. }
  split; [exact H |].
  intros p c d ->. simpl in H.
  assert (Hm : isMobile (state (run evs (mount p c d))) = true).
  { unfold geometry in H. injection H as _ _ _ Hs.
    unfold isMobile. now rewrite Hs. }
  repeat split; try assumption.
  now apply hoverIndicator_hidden_on_mobile.
Qed.

(** Mounted, committed twice and handed the sample recording, but with the
    debounce timer still to fire: the canvas is still 0 pixels wide. *)
Lemma geometry_changes_only_on_resize_sample :
  canvasWidth
    (state (run [Render;
                 HostUpdate (defaultProps false) (Sample.recorded 0%Q false);
                 Render; MouseMove 10%Q]
              (Scenario.fresh (Sample.page 300 2%Q)))) = 0.
Proof.
  assert (Hn : noResizeCompleted
                 [Render;
                  HostUpdate (defaultProps false) (Sample.recorded 0%Q false);
                  Render; MouseMove 10%Q]
                 (Scenario.fresh (Sample.page 300 2%Q)))
    by (vm_compute; repeat split).
  destruct (geometry_changes_only_on_resize _ _ Hn) as [_ H].
  destruct (H (defaultProps false) Sample.idle (Sample.page 300 2%Q) eq_refl)
    as (Hg & _).
  exact (f_equal (fun t : Z * Z * Z * Z => snd (fst t)) Hg).
Defined.

(** X16: when the playback time differs from the one of the last commit,
    the commit redraws the static waveform exactly once, with the stored
    bars and the new time, provided static rendering is enabled, bars are
    stored, the canvas is mounted, no resize is in progress and the component
    is not cleared; the draw clears the processing flag.  If nothing the live
    renderer depends on has changed, that commit makes no live draw and
    leaves the throttle counter alone. *)
Theorem playback_progress_redraws (w : World) (u : View) :
  committed w = Some u ->
  same (currentAudioTime (vControls u)) (currentAudioTime (controls w))
  = false ->
  onlyRecording (props w) = false ->
  Channel.bars (Channel.result (channel w)) <> [] ->
  canvasMounted (dom w) = true ->
  isResizing (state w) = false ->
  isCleared (controls w) = false ->
  (exists g,
      blobDraws (log (step Render w))
      = blobDraws (log w) ++ [DrawByBlob (blobArgs (view w)) g])
  /\ ba_currentAudioTime (blobArgs (view w)) = currentAudioTime (controls w)
  /\ ba_barsData (blobArgs (view w))
     = Channel.bars (Channel.result (channel w))
  /\ isProcessingAudio (state (step Render w)) = false
  /\ (sameLiveStreamDeps u (view w) = true ->
      liveDraws (log (step Render w)) = liveDraws (log w)
      /\ indexSpeedRef (refs (step Render w)) = indexSpeedRef (refs w)).
Proof.
  intros Hc Htime Honly Hbars Hm Hres Hclr.
  change (step Render w) with (render w).
  assert (Hdeps : sameStaticRenderDeps u (view w) = false).
  { unfold sameStaticRenderDeps. simpl. rewrite Htime.
    now rewrite andb_false_r. }
  assert (Hlen : (List.length (Channel.bars (vBarsData (view w))) =? 0)%nat
                 = false).
  { simpl. destruct (Channel.bars (Channel.result (channel w)));
      [contradiction | reflexivity]. }
  assert (Honly' : onlyRecording (vProps (view w)) = false) by exact Honly.
  assert (Hres' : isResizing (vState (view w)) = false) by exact Hres.
  assert (Hclr' : isCleared (vControls (view w)) = false) by exact Hclr.
  assert (Hdraw : forall w4,
             dom w4 = dom w ->
             staticRenderEffect (view w) w4
             = call (SetIsProcessingRecordedAudio false)
                 (withState (setIsProcessingAudio false (state w4))
                    (call (DrawByBlob (blobArgs (view w))
                             {| drawnAnswers :=
                                  Channel.answers (vBarsData (view w));
                                latestSubmitted :=
                                  Channel.generation (channel w4) |}) w4))).
  { intros w4 Hd. unfold staticRenderEffect, staticRenderSkipped.
    rewrite Honly', Hlen, Hres', Hd, Hm, Hclr'. reflexivity. }
  clear Honly' Hres' Hclr' Hlen.
  split; [| split; [reflexivity | split; [reflexivity | split]]].
  - commit_stages w.
    assert (E5 : w5 = staticRenderEffect v w4).
    { unfold w5, runEffect. rewrite Hc. now rewrite Hdeps. }
    rewrite Hdraw in E5 by congruence.
    eexists. simpl.
    replace (blobDraws (log w6)) with (blobDraws (log w5)) by congruence.
    rewrite E5. simpl.
    rewrite <- app_assoc, blobDraws_app. simpl.
    replace (blobDraws (log w4)) with (blobDraws (log w)) by congruence.
    reflexivity.
  - commit_stages w.
    assert (E5 : w5 = staticRenderEffect v w4).
    { unfold w5, runEffect. rewrite Hc. now rewrite Hdeps. }
    rewrite Hdraw in E5 by congruence.
    simpl. replace (state w6) with (state w5) by congruence.
    now rewrite E5.
  - intro Hlive. commit_stages w.
    assert (E1 : w1 = w).
    { unfold w1, runEffect. rewrite Hc. now rewrite Hlive. }
    simpl. split.
    + replace (liveDraws (log w6)) with (liveDraws (log w1)) by congruence.
      now rewrite E1.
    + replace (indexSpeedRef (refs w6)) with (indexSpeedRef (refs w1))
        by congruence.
      now rewrite E1.
Qed.

(** Playback of the sample recording advances from 0 to 60 seconds: the
    next commit makes one more static draw and no live draw. *)
Lemma playback_progress_redraws_sample :
  List.length (blobDraws (log (step Render Scenario.advanced)))
  = S (List.length (blobDraws (log Scenario.advanced)))
  /\ liveDraws (log (step Render Scenario.advanced))
     = liveDraws (log Scenario.advanced).
Proof.
  assert (Hc : committed Scenario.advanced
               = Some (Scenario.lastCommit Scenario.advanced))
    by (vm_compute; reflexivity).
  assert (Ht : same (currentAudioTime
                       (vControls (Scenario.lastCommit Scenario.advanced)))
                 (currentAudioTime (controls Scenario.advanced)) = false)
    by (vm_compute; reflexivity).
  assert (Ho : onlyRecording (props Scenario.advanced) = false)
    by (vm_compute; reflexivity).
  assert (Hb : Channel.bars (Channel.result (channel Scenario.advanced))
               <> [])
    by (vm_compute; discriminate).
  assert (Hm : canvasMounted (dom Scenario.advanced) = true)
    by (vm_compute; reflexivity).
  assert (Hr : isResizing (state Scenario.advanced) = false)
    by (vm_compute; reflexivity).
  assert (Hcl : isCleared (controls Scenario.advanced) = false)
    by (vm_compute; reflexivity).
  assert (Hl : sameLiveStreamDeps (Scenario.lastCommit Scenario.advanced)
                 (view Scenario.advanced) = true)
    by (vm_compute; reflexivity).
  destruct (playback_progress_redraws Scenario.advanced _ Hc Ht Ho Hb Hm Hr
              Hcl) as ([g Hg] & _ & _ & _ & Hlive).
  split.
  - rewrite Hg. apply last_length.
  - exact (proj1 (Hlive Hl)).
Defined.
